(** * Donation flow of the Musaffo mini-app

    Shallow embedding of the client-side donation action [simulateDonation]
    (App component, src/unnamed/part_000) together with the data model of
    src/frontend/src/types.ts and the HTTP client of
    src/frontend/src/services/api.ts.  The Core API service that answers
    those HTTP calls is not part of the sources; it is modelled from the
    specification (ledger store, distribution engine) behind the same
    interface, with optional injected faults. *)

From Stdlib Require Import ZArith List Lia String.
From stdpp Require Import base gmap strings list.
Import ListNotations.
Local Open Scope string_scope.
Local Open Scope Z_scope.

(** ** Data model (types.ts) *)

Inductive ProjectStatus := PActive | PCompleted | PVoting.

(** [FundProject]: only the fields the donation flow reads or writes. *)
Record FundProject := mkFundProject {
  p_id : string;
  p_targetAmount : Z;
  p_currentAmount : Z;
  p_status : ProjectStatus
}.

Inductive UserStatus := Newcomer | EcoProtector | GuardianOfTheSky.

(** [UserState]: optional TS fields are [option]s. *)
Record UserState := mkUserState {
  isContributor : bool;
  contributionAmount : Z;
  totalDonated : option Z;
  projectContributions : option (gmap string Z);
  name : string;
  status : UserStatus
}.

(** The two localStorage keys written by the donation flow;
    [donationAmount] holds [String(n)], kept here as the number [n]. *)
Record LocalStorage := mkLocalStorage {
  ls_hasDonated : option string;
  ls_donationAmount : option Z
}.

(** Toast messages set by the App component ([t(...)] keys). *)
Inductive Toast :=
| toast_processing_payment
| toast_thank_you (amount : Z)
| error_donation_failed
| error_loading_projects.

(** React state of the App component touched by [simulateDonation]. *)
Record ClientState := mkClientState {
  user : UserState;
  projects : list FundProject;
  localStorage : LocalStorage;
  toast : option Toast;
  showDonation : bool
}.

Definition set_toast (t : option Toast) (c : ClientState) : ClientState :=
  mkClientState (user c) (projects c) (localStorage c) t (showDonation c).
Definition set_showDonation (b : bool) (c : ClientState) : ClientState :=
  mkClientState (user c) (projects c) (localStorage c) (toast c) b.
Definition set_projects (ps : list FundProject) (c : ClientState) : ClientState :=
  mkClientState (user c) ps (localStorage c) (toast c) (showDonation c).

(** ** HTTP client (api.ts)

    Every call either resolves with a value or throws; the backend state
    is threaded explicitly. *)

Inductive ApiError :=
| ValidationError
| NotFoundError
| StoreUnavailableError.

Inductive result (A : Type) :=
| Ok (a : A)
| Err (e : ApiError).
Arguments Ok {A} a.
Arguments Err {A} e.

(** Body of [GET /api/donations/donor/{userId}]. *)
Record DonorInfo := mkDonorInfo {
  di_isContributor : bool;
  di_totalDonated : option Z;
  di_projectContributions : option (gmap string Z)
}.

(** [donationsApi] and [projectsApi] as seen by the App component. *)
Record Api (S : Type) := mkApi {
  donationsApi_create : string -> Z -> S -> result S;
  donationsApi_distributeToProjects : string -> Z -> list string -> S -> result S;
  donationsApi_getDonorInfo : string -> S -> result DonorInfo;
  projectsApi_update : string -> Z -> S -> result S;
  projectsApi_getAll : S -> result (list FundProject)
}.
Arguments donationsApi_create {S} a _ _ _.
Arguments donationsApi_distributeToProjects {S} a _ _ _ _.
Arguments donationsApi_getDonorInfo {S} a _ _.
Arguments projectsApi_update {S} a _ _ _.
Arguments projectsApi_getAll {S} a _.

Record World (S : Type) := mkWorld { store : S; client : ClientState }.
Arguments mkWorld {S} _ _.
Arguments store {S} _.
Arguments client {S} _.

(** JavaScript [x || d] on a number that may be absent: [0] and
    [undefined] are falsy. *)
Definition js_or_num (x : option Z) (d : Z) : Z :=
  match x with
  | Some v => if Z.eqb v 0 then d else v
  | None => d
  end.

(** JavaScript [x || {}] on an object that may be absent. *)
Definition js_or_obj (x : option (gmap string Z)) : gmap string Z :=
  match x with
  | Some m => m
  | None => ∅
  end.

(** ** The client action [simulateDonation] (part_000, lines 379-441) *)

Section Client.
Context {St : Type} (api : Api St).

Definition is_active (p : FundProject) : bool :=
  match p_status p with PActive => true | _ => false end.

(** [for (const project of activeProjects) { try { await
    projectsApi.update(project.id, {currentAmount: project.currentAmount
    + amountPerProject}) } catch (error) { console.error(...) } }] *)
Fixpoint updateEach (amountPerProject : Z) (ps : list FundProject) (st : St) : St :=
  match ps with
  | [] => st
  | project :: rest =>
      let st' :=
        match projectsApi_update api (p_id project)
                (p_currentAmount project + amountPerProject) st with
        | Ok s => s
        | Err _ => st
        end in
      updateEach amountPerProject rest st'
  end.

(** [fetchProjects]: catches its own errors (toast, projects kept). *)
Definition fetchProjects (st : St) (c : ClientState) : ClientState :=
  match projectsApi_getAll api st with
  | Ok data => set_projects data c
  | Err _ => set_toast (Some error_loading_projects) c
  end.

(** [setUser(prev => ...)] and the two [localStorage.setItem] calls. *)
Definition applyDonorInfo (amount : Z) (donorInfo : DonorInfo) (c : ClientState)
  : ClientState :=
  let prev := user c in
  let total := js_or_num (di_totalDonated donorInfo) amount in
  mkClientState
    (mkUserState true total (Some total)
       (Some (js_or_obj (di_projectContributions donorInfo)))
       (name prev) EcoProtector)
    (projects c)
    (mkLocalStorage (Some "true") (Some total))
    (toast c) (showDonation c).

(** [const userId = user.name || 'guest'] *)
Definition userIdOf (userName : string) : string :=
  if String.eqb userName "" then "guest" else userName.

(** [userName] and [projects] are the values captured by the closure
    of the render the call comes from ([user.name], [projects]). *)
Definition simulateDonation (userName : string) (projects : list FundProject)
    (amount : Z) (w : World St) : World St :=
  let c0 := set_toast (Some toast_processing_payment) (client w) in
  let userId := userIdOf userName in
  let fail st := mkWorld st (set_toast (Some error_donation_failed) c0) in
  let finish st3 :=
    match donationsApi_getDonorInfo api userId st3 with
    | Err _ => fail st3
    | Ok donorInfo =>
        (* refetchStats() only touches the stats panel *)
        let c1 := fetchProjects st3 (applyDonorInfo amount donorInfo c0) in
        mkWorld st3
          (set_showDonation false (set_toast (Some (toast_thank_you amount)) c1))
    end in
  match donationsApi_create api userId amount (store w) with
  | Err _ => fail (store w)
  | Ok st1 =>
      let activeProjects := List.filter is_active projects in
      let activeProjectIds := map p_id activeProjects in
      if Nat.ltb 0 (length activeProjectIds) then
        match donationsApi_distributeToProjects api userId amount activeProjectIds st1 with
        | Err _ => fail st1
        | Ok st2 =>
            let amountPerProject := amount / Z.of_nat (length activeProjectIds) in
            finish (updateEach amountPerProject activeProjects st2)
        end
      else finish st1
  end.

(** [n] donations of [amount] started from the same render, hence with
    the same captured [user.name] and [projects]. *)
Fixpoint concurrentDonations (n : nat) (userName : string)
    (projects : list FundProject) (amount : Z) (w : World St) : World St :=
  match n with
  | O => w
  | S k => concurrentDonations k userName projects amount
             (simulateDonation userName projects amount w)
  end.

(** Donations made one after the other, each from the render the
    previous one left, whose [user.name] and [projects] the closure
    captures. *)
Fixpoint donationSequence (amounts : list Z) (w : World St) : World St :=
  match amounts with
  | [] => w
  | a :: rest =>
      donationSequence rest
        (simulateDonation (name (user (client w))) (projects (client w)) a w)
  end.
End Client.

(** ** Core API (ledger store and distribution engine)

    Modelled from the spec: the Core API service (Firestore-backed,
    not in the sources).  Its endpoints follow the spec's ledger
    operations: [POST /api/donations] is [createDonation] (4.1),
    persisting the Donation and counting it in the donor's account
    (section 3: [totalDonated] is the sum of the donor's Donations, the
    account being created lazily and updated on every donation; 4.2 and
    section 8: the full amount is counted even when nothing is
    allocated), [POST .../distribute] attributes the allocation of the
    distribution engine (4.2) to [projectContributions] through
    [upsertDonorContribution] for every share [> 0] (4.3 step 5, the
    project totals being pushed by the caller, section 6),
    [PATCH /api/projects/{id}] writes [currentAmount] and
    [GET /api/donations/donor/{userId}] reads the donor account. *)
Module Ledger.

Record DonorAccount := mkDonorAccount {
  acc_totalDonated : Z;
  acc_projectContributions : gmap string Z
}.

Record Store := mkStore {
  donations : list (string * Z);
  storeProjects : list FundProject;
  donors : gmap string DonorAccount
}.

Definition emptyAccount : DonorAccount := mkDonorAccount 0 ∅.

(** Modelled from the spec: the donor's account with the amount of a new
    Donation added to [totalDonated], created empty if absent (section 3). *)
Definition creditDonor (donorId : string) (amount : Z)
    (ds : gmap string DonorAccount) : gmap string DonorAccount :=
  let acc := default emptyAccount (ds !! donorId) in
  <[donorId := mkDonorAccount (acc_totalDonated acc + amount)
                 (acc_projectContributions acc)]> ds.

(** The donation log with one more record appended, counted in the
    donor's account. *)
Definition afterCreate (donorId : string) (amount : Z) (st : Store) : Store :=
  mkStore (donations st ++ [(donorId, amount)]) (storeProjects st)
    (creditDonor donorId amount (donors st)).

(** Modelled from the spec: [createDonation] of 4.1. *)
Definition createDonation (donorId : string) (amount : Z) (st : Store)
  : result Store :=
  if Z.leb amount 0 then Err ValidationError
  else Ok (afterCreate donorId amount st).

(** Modelled from the spec: the distribution engine of 4.2, floor share
    for every project and the remainder to the first one. *)
Definition distribution (amount : Z) (projectIds : list string)
  : list (string * Z) :=
  match projectIds with
  | [] => []
  | first :: rest =>
      let count := Z.of_nat (length projectIds) in
      let share := amount / count in
      (first, share + (amount - share * count)) :: map (fun i => (i, share)) rest
  end.

(** Modelled from the spec: [upsertDonorContribution] of 4.1, as used by
    the distribute endpoint.  4.1 also adds [delta] to [totalDonated];
    the amount being counted there when the Donation is persisted
    (section 3, 4.2, section 8), only [projectContributions] moves here,
    so that a distributed amount is not counted twice. *)
Definition upsertDonorContribution (donorId projectId : string) (delta : Z)
    (st : Store) : Store :=
  let acc := default emptyAccount (donors st !! donorId) in
  let pc := acc_projectContributions acc in
  let acc' := mkDonorAccount (acc_totalDonated acc)
                (<[projectId := default 0 (pc !! projectId) + delta]> pc) in
  mkStore (donations st) (storeProjects st) (<[donorId := acc']> (donors st)).

Definition applyShare (donorId : string) (st : Store) (pr : string * Z) : Store :=
  if Z.ltb 0 (snd pr) then upsertDonorContribution donorId (fst pr) (snd pr) st
  else st.

(** Modelled from the spec: the distribute endpoint (4.3 step 5). *)
Definition distribute (donorId : string) (amount : Z) (projectIds : list string)
    (st : Store) : result Store :=
  Ok (fold_left (applyShare donorId) (distribution amount projectIds) st).

Definition hasProject (st : Store) (projectId : string) : bool :=
  existsb (fun p => String.eqb (p_id p) projectId) (storeProjects st).

Definition setAmount (projectId : string) (v : Z) (l : list FundProject)
  : list FundProject :=
  map (fun p => if String.eqb (p_id p) projectId
                then mkFundProject (p_id p) (p_targetAmount p) v (p_status p)
                else p) l.

(** Modelled from the spec: [PATCH /api/projects/{id}] with body
    [{currentAmount}]; [NotFoundError] for an unknown id. *)
Definition patchProject (projectId : string) (currentAmount : Z) (st : Store)
  : result Store :=
  if hasProject st projectId then
    Ok (mkStore (donations st) (setAmount projectId currentAmount (storeProjects st))
          (donors st))
  else Err NotFoundError.

(** Modelled from the spec: [getDonorAccount]; an absent account is
    served as a non-contributor with zero total. *)
Definition getDonorAccount (donorId : string) (st : Store) : DonorInfo :=
  match donors st !! donorId with
  | None => mkDonorInfo false (Some 0) (Some ∅)
  | Some acc => mkDonorInfo true (Some (acc_totalDonated acc))
                  (Some (acc_projectContributions acc))
  end.

(** Simulated store faults: which calls throw. *)
Record Faults := mkFaults {
  fail_create : bool;
  fail_distribute : bool;
  fail_update : list string;
  fail_donorInfo : bool;
  fail_getAll : bool
}.

Definition noFaults : Faults := mkFaults false false [] false false.

Definition ledgerApi (F : Faults) : Api Store :=
  mkApi Store
    (fun u a st => if fail_create F then Err StoreUnavailableError
                   else createDonation u a st)
    (fun u a ids st => if fail_distribute F then Err StoreUnavailableError
                       else distribute u a ids st)
    (fun u st => if fail_donorInfo F then Err StoreUnavailableError
                 else Ok (getDonorAccount u st))
    (fun pid v st => if existsb (String.eqb pid) (fail_update F)
                     then Err StoreUnavailableError
                     else patchProject pid v st)
    (fun st => if fail_getAll F then Err StoreUnavailableError
               else Ok (storeProjects st)).

(** Observations on the store. *)
Definition projectAmount (st : Store) (projectId : string) : option Z :=
  option_map p_currentAmount
    (find (fun p => String.eqb (p_id p) projectId) (storeProjects st)).

Definition storedTotal (st : Store) (donorId : string) : Z :=
  match donors st !! donorId with
  | Some acc => acc_totalDonated acc
  | None => 0
  end.

Fixpoint zsum (l : list Z) : Z :=
  match l with [] => 0 | x :: r => x + zsum r end.

Definition storedContributions (st : Store) (donorId : string) : gmap string Z :=
  match donors st !! donorId with
  | Some acc => acc_projectContributions acc
  | None => ∅
  end.

Definition sum_values (m : gmap string Z) : Z := zsum (map snd (map_to_list m)).

(** Sum of the donor's Donation records (the audit trail). *)
Definition donor_sum (st : Store) (donorId : string) : Z :=
  zsum (map snd (List.filter (fun d => String.eqb (fst d) donorId) (donations st))).

End Ledger.

(** ** Concrete inputs used by the examples *)
Module Examples.
Import Ledger.

Definition project (i : string) (a : Z) (s : ProjectStatus) : FundProject :=
  mkFundProject i 100000 a s.
Definition user0 : UserState := mkUserState false 0 None None "" Newcomer.
Definition client0 (ps : list FundProject) : ClientState :=
  mkClientState user0 ps (mkLocalStorage None None) None true.
Definition threeProjects : list FundProject :=
  [project "P1" 0 PActive; project "P2" 0 PActive; project "P3" 0 PActive].
Definition world0 (ps : list FundProject) : World Store :=
  mkWorld (mkStore [] ps ∅) (client0 ps).
End Examples.

(** ** Other parts of the App component and of the views *)
Module AppUI.

(** *** Navigation (part_000) *)

(** [type Tab] (types.ts). *)
Inductive Tab := home | fund | market | community | chat.

(** [getTabFromPath] *)
Definition getTabFromPath (path : string) : Tab :=
  if String.eqb path "/fund" then fund
  else if String.eqb path "/market" then market
  else if String.eqb path "/community" then community
  else home.

(** The [paths] record of [handleTabChange]. *)
Definition paths (tab : Tab) : string :=
  match tab with
  | home => "/"
  | fund => "/fund"
  | market => "/market"
  | community => "/community"
  | chat => "/"
  end.

(** [location.pathname] and the [activeTab] state. *)
Record Nav := mkNav { pathname : string; activeTab : Tab }.

(** [handleTabChange]: [navigate(paths[tab]); setActiveTab(tab)]. *)
Definition handleTabChange (tab : Tab) (n : Nav) : Nav :=
  mkNav (paths tab) tab.

(** The effect with dependency [[location.pathname]]: it runs after a
    render whose pathname differs from the one of the previous run. *)
Definition syncTabEffect (prevPath : string) (n : Nav) : Nav :=
  if String.eqb (pathname n) prevPath then n
  else mkNav (pathname n) (getTabFromPath (pathname n)).

(** A tab click: the handler, then the render and its effects. *)
Definition clickTab (tab : Tab) (n : Nav) : Nav :=
  syncTabEffect (pathname n) (handleTabChange tab n).

(** *** [getTimeAgo] (part_000) *)

(** The [timestamp] argument.  Numbers are milliseconds; [TsObject]
    carries the numeric fields [_seconds] and [seconds] ([None] when
    absent); [TsValue] is a string or a non-zero number, given by the
    time value [new Date(timestamp)] parses it to ([None]: Invalid
    Date). *)
Inductive Timestamp :=
| TsNull
| TsUndefined
| TsZero
| TsObject (underscoreSeconds seconds : option Z)
| TsValue (parsed : option Z).

(** TimeClip of [new Date(ms)]: outside [+-8.64e15] the date is invalid. *)
Definition timeClip (ms : Z) : option Z :=
  if Z.abs ms <=? 8640000000000000 then Some ms else None.

(** JavaScript truthiness of a number that may be absent. *)
Definition js_truthy (x : option Z) : bool :=
  match x with Some v => negb (Z.eqb v 0) | None => false end.

(** [then.getTime()]; [None] is [NaN]. *)
Definition thenTime (timestamp : Timestamp) : option Z :=
  match timestamp with
  | TsObject us s =>
      if js_truthy us then timeClip (default 0 us * 1000)
      else if js_truthy s then timeClip (default 0 s * 1000)
      else None                         (* new Date(object): Invalid Date *)
  | TsNull => Some 0                    (* new Date(null) *)
  | TsZero => Some 0                    (* new Date(0) *)
  | TsUndefined => None                 (* new Date(undefined) *)
  | TsValue parsed => parsed
  end.

(** The rendered [`${n} ${t(key)}`]. *)
Inductive TimeAgo :=
| DaysAgo (n : Z)
| HoursAgo (n : Z)
| MinutesAgo (n : Z).

Definition getTimeAgo (now : Z) (timestamp : Timestamp) : TimeAgo :=
  match thenTime timestamp with
  | None => HoursAgo 1
  | Some t =>
      let diffMs := now - t in
      if diffMs <? 0 then HoursAgo 1
      else
        let diffMinutes := diffMs / (1000 * 60) in
        let diffHours := diffMs / (1000 * 60 * 60) in
        let diffDays := diffHours / 24 in
        if 0 <? diffDays then DaysAgo diffDays
        else if 0 <? diffHours then HoursAgo diffHours
        else MinutesAgo (Z.max 1 diffMinutes)
  end.

(** *** [detailKey] in [fetchProjects] (part_000) *)

Fixpoint dropString (n : nat) (s : string) : string :=
  match n, s with
  | O, _ => s
  | Datatypes.S k, String _ s' => dropString k s'
  | Datatypes.S _, EmptyString => EmptyString
  end.

(** [s.replace(pat, rep)] with a string pattern: the first occurrence
    only. *)
Fixpoint replaceFirst (pat rep s : string) : string :=
  if String.prefix pat s then rep ++ dropString (String.length pat) s
  else
    match s with
    | EmptyString => EmptyString
    | String c s' => String c (replaceFirst pat rep s')
    end.

(** [p.titleKey ? p.titleKey.replace('_title', '_detail') : undefined] *)
Definition detailKeyOf (titleKey : option string) : option string :=
  match titleKey with
  | Some k => if String.eqb k "" then None
              else Some (replaceFirst "_title" "_detail" k)
  | None => None
  end.

(** Some occurrence of [pat] starts in [s]. *)
Fixpoint occurs (pat s : string) : bool :=
  String.prefix pat s ||
  match s with
  | EmptyString => false
  | String _ s' => occurs pat s'
  end.

(** *** Donor info on mount and the Telegram user (part_000) *)

Definition INITIAL_USER : UserState :=
  mkUserState false 0 None None "Mehmon" Newcomer.

(** The first render: persisted localStorage, no projects yet. *)
Definition initialClient (ls : LocalStorage) : ClientState :=
  mkClientState INITIAL_USER [] ls None false.

Record TelegramUser := mkTelegramUser {
  first_name : string;
  last_name : option string
}.

(** [tgUser.first_name + (tgUser.last_name ? ' ' + tgUser.last_name : '')] *)
Definition telegramName (tg : TelegramUser) : string :=
  first_name tg ++
  match last_name tg with
  | Some l => if String.eqb l "" then "" else " " ++ l
  | None => ""
  end.

Definition set_user (u : UserState) (c : ClientState) : ClientState :=
  mkClientState u (projects c) (localStorage c) (toast c) (showDonation c).

Definition set_name (n : string) (u : UserState) : UserState :=
  mkUserState (isContributor u) (contributionAmount u) (totalDonated u)
    (projectContributions u) n (status u).

(** The Telegram effect: [setUser(prev => ({...prev, name: ...}))]. *)
Definition telegramInit (isTelegramWebApp : bool) (tgUser : option TelegramUser)
    (c : ClientState) : ClientState :=
  if isTelegramWebApp then
    match tgUser with
    | Some tg => set_user (set_name (telegramName tg) (user c)) c
    | None => c
    end
  else c.

Section Mount.
Context {St : Type} (api : Api St).

(** [loadDonorInfo]; [userName] is the [user.name] of the render the
    effect belongs to. *)
Definition loadDonorInfo (userName : string) (st : St) (c : ClientState)
  : ClientState :=
  match donationsApi_getDonorInfo api (userIdOf userName) st with
  | Err _ => c
  | Ok donorInfo =>
      match di_totalDonated donorInfo with
      | Some total =>
          if di_isContributor donorInfo && (0 <? total) then
            let prev := user c in
            mkClientState
              (mkUserState true total (Some total)
                 (Some (js_or_obj (di_projectContributions donorInfo)))
                 (name prev) EcoProtector)
              (projects c)
              (mkLocalStorage (Some "true") (Some total))
              (toast c) (showDonation c)
          else c
      | None => c
      end
  end.

(** The mount, once its requests have completed: the Telegram effect,
    then the two effects with empty dependencies, [loadDonorInfo], whose
    closure holds the first render's [user], i.e. [INITIAL_USER], and
    [loadAllData], whose [fetchProjects] sets [projects] or the error
    toast ([fetchAQI], [fetchStats], [fetchNews] and the loading flags
    write other state).  The two requests overlap; their updates touch
    disjoint fields and commute ([mount_reads_initial_user]). *)
Definition mountClient (isTelegramWebApp : bool) (tgUser : option TelegramUser)
    (ls : LocalStorage) (st : St) : ClientState :=
  fetchProjects api st
    (loadDonorInfo (name INITIAL_USER) st
       (telegramInit isTelegramWebApp tgUser (initialClient ls))).
End Mount.

(** *** FundView (views/FundView.tsx) *)

Inductive FundTab := tab_active | tab_completed.

Definition is_completed (p : FundProject) : bool :=
  match p_status p with PCompleted => true | _ => false end.

(** [filteredProjects] *)
Definition filteredProjects (activeTab : FundTab) (ps : list FundProject)
  : list FundProject :=
  List.filter (fun p => match activeTab with
                        | tab_active => is_active p
                        | tab_completed => is_completed p
                        end) ps.

Definition activeProjectsCount (ps : list FundProject) : Z :=
  Z.of_nat (length (List.filter is_active ps)).

(** [user.totalDonated && activeProjectsCount > 0
      ? Math.floor(user.totalDonated / activeProjectsCount) : 0] *)
Definition userContribution (u : UserState) (ps : list FundProject) : Z :=
  if js_truthy (totalDonated u) && (0 <? activeProjectsCount ps) then
    default 0 (totalDonated u) / activeProjectsCount ps
  else 0.

(** [userContribution > 0 && p.status === 'active'] *)
Definition contributionBadge (u : UserState) (ps : list FundProject)
    (p : FundProject) : bool :=
  (0 <? userContribution u ps) && is_active p.

(** [user.isContributor && user.totalDonated && user.totalDonated > 0] *)
Definition thankYouBanner (u : UserState) : bool :=
  isContributor u && js_truthy (totalDonated u) && (0 <? default 0 (totalDonated u)).

(** *** DonationModal (components/DonationModal.tsx) *)

(** The [amount] state: [''] at first, then the number set by a preset
    button or by [Number(e.target.value)] of the number input. *)
Inductive ModalAmount := AmtEmpty | AmtNum (n : Z).

(** [onClick={() => setAmount(preset)}] and [onChange]; an input
    value is an integer entry or the cleared field ([None]:
    [Number('') = 0]). *)
Inductive ModalEvent :=
| PresetClick (preset : Z)
| InputChange (value : option Z).

Definition modalStep (amount : ModalAmount) (e : ModalEvent) : ModalAmount :=
  match e with
  | PresetClick preset => AmtNum preset
  | InputChange value => AmtNum (default 0 value)
  end.

(** [handleDonate]: [if (!amount) return; ... onDonate(Number(amount))];
    [Some n] is the [onDonate(n)] call. *)
Definition handleDonate (amount : ModalAmount) : option Z :=
  match amount with
  | AmtEmpty => None
  | AmtNum n => if Z.eqb n 0 then None else Some n
  end.

Definition presets : list Z := [5000; 10000; 50000; 100000].

(** The events of one opening of the modal, then the donate button. *)
Definition modalSession (events : list ModalEvent) : option Z :=
  handleDonate (fold_left modalStep events AmtEmpty).

(** *** Votes (part_000, [onVote] of CommunityView and InitiativeDetail) *)

(** The fields of [FundProject] the vote handlers read or write. *)
Record Votes := mkVotes {
  v_id : string;
  votesFor : option Z;
  votesAgainst : option Z
}.

(** CommunityView's [onVote(projectId, voteType)] on [prev]. *)
Definition communityVote (projectId voteType : string) (prev : list Votes)
  : list Votes :=
  map (fun p =>
         if String.eqb (v_id p) projectId then
           mkVotes (v_id p)
             (if String.eqb voteType "for" then Some (js_or_num (votesFor p) 0 + 1)
              else votesFor p)
             (if String.eqb voteType "against" then Some (js_or_num (votesAgainst p) 0 + 1)
              else votesAgainst p)
         else p) prev.

(** InitiativeDetail's [onVote(id, type)]: the new list and the last
    [setActiveInitiative] argument, if any. *)
Fixpoint initiativeVote (id type : string) (prevProjects : list Votes)
    (active : option Votes) : list Votes * option Votes :=
  match prevProjects with
  | [] => ([], active)
  | project :: rest =>
      if String.eqb (v_id project) id then
        let updatedProject :=
          mkVotes (v_id project)
            (if String.eqb type "up" then Some (js_or_num (votesFor project) 0 + 1)
             else votesFor project)
            (if String.eqb type "down" then Some (js_or_num (votesAgainst project) 0 + 1)
             else votesAgainst project) in
        let r := initiativeVote id type rest (Some updatedProject) in
        (updatedProject :: fst r, snd r)
      else
        let r := initiativeVote id type rest active in
        (project :: fst r, snd r)
  end.

(** The displayed tally of one counter, [(p.votesFor || 0)] summed. *)
Definition tally (f : Votes -> option Z) (ps : list Votes) : Z :=
  Ledger.zsum (map (fun p => js_or_num (f p) 0) ps).

End AppUI.

(** * Proofs *)

Module Proofs.
Import Ledger.

Lemma existsb_setAmount pid v q l :
  existsb (fun p => String.eqb (p_id p) q) (setAmount pid v l)
  = existsb (fun p => String.eqb (p_id p) q) l.
Proof.
  induction l as [|a l IH]; simpl; [done|].
  destruct (String.eqb (p_id a) pid); simpl; by rewrite IH.
Qed.

Lemma find_setAmount_same pid v l :
  existsb (fun p => String.eqb (p_id p) pid) l = true ->
  option_map p_currentAmount (find (fun p => String.eqb (p_id p) pid) (setAmount pid v l))
  = Some v.
Proof.
  induction l as [|a l IH]; simpl; [discriminate|].
  destruct (String.eqb (p_id a) pid) eqn:E; simpl.
  - by rewrite E.
  - rewrite E. exact IH.
Qed.

Lemma find_setAmount_other pid v q l :
  q <> pid ->
  find (fun p => String.eqb (p_id p) q) (setAmount pid v l)
  = find (fun p => String.eqb (p_id p) q) l.
Proof.
  intros Hne. induction l as [|a l IH]; simpl; [done|].
  destruct (String.eqb (p_id a) pid) eqn:E; simpl.
  - apply String.eqb_eq in E.
    destruct (String.eqb (p_id a) q) eqn:E2.
    + apply String.eqb_eq in E2. congruence.
    + exact IH.
  - destruct (String.eqb (p_id a) q); [done | exact IH].
Qed.

(** Store-level facts of one [projectsApi.update] call. *)
Lemma update_ok F pid v st st' :
  projectsApi_update (ledgerApi F) pid v st = Ok st' ->
  donations st' = donations st /\ donors st' = donors st /\
  storeProjects st' = setAmount pid v (storeProjects st) /\
  hasProject st pid = true.
Proof.
  simpl. destruct (existsb (String.eqb pid) (fail_update F)); [discriminate|].
  unfold patchProject. destruct (hasProject st pid) eqn:E; [|discriminate].
  intros H; injection H as <-. done.
Qed.

Lemma update_success F pid v st :
  existsb (String.eqb pid) (fail_update F) = false ->
  hasProject st pid = true ->
  projectsApi_update (ledgerApi F) pid v st
  = Ok (mkStore (donations st) (setAmount pid v (storeProjects st)) (donors st)).
Proof.
  intros Hf Hp. simpl. rewrite Hf. unfold patchProject. by rewrite Hp.
Qed.

(** The update loop never touches donations, donors or the set of ids. *)
Lemma updateEach_frame F per ps st :
  donations (updateEach (ledgerApi F) per ps st) = donations st /\
  donors (updateEach (ledgerApi F) per ps st) = donors st /\
  (forall q, hasProject (updateEach (ledgerApi F) per ps st) q = hasProject st q).
Proof.
  revert st. induction ps as [|p ps IH]; intros st; cbn [updateEach]; [done|].
  destruct (projectsApi_update (ledgerApi F) (p_id p) (p_currentAmount p + per) st) as [s|e] eqn:E.
  - apply update_ok in E as (E1 & E2 & E3 & _).
    destruct (IH s) as (H1 & H2 & H3). split; [|split].
    + congruence.
    + congruence.
    + intros q. rewrite H3. unfold hasProject. rewrite E3. apply existsb_setAmount.
  - apply IH.
Qed.

Lemma updateEach_other F per ps st q :
  ~ In q (map p_id ps) ->
  projectAmount (updateEach (ledgerApi F) per ps st) q = projectAmount st q.
Proof.
  revert st. induction ps as [|p ps IH]; intros st Hq; cbn [updateEach]; [done|].
  simpl in Hq.
  destruct (projectsApi_update (ledgerApi F) (p_id p) (p_currentAmount p + per) st) as [s|e] eqn:E.
  - rewrite IH by tauto. apply update_ok in E as (_ & _ & E3 & _).
    unfold projectAmount. rewrite E3. rewrite find_setAmount_other; [done|].
    intros ->. tauto.
  - apply IH. tauto.
Qed.

(** Every project of the loop whose update does not throw gets
    [snapshot + amountPerProject], whatever happened to the others. *)
Lemma updateEach_applied F per ps st p :
  NoDup (map p_id ps) -> In p ps ->
  existsb (String.eqb (p_id p)) (fail_update F) = false ->
  hasProject st (p_id p) = true ->
  projectAmount (updateEach (ledgerApi F) per ps st) (p_id p)
  = Some (p_currentAmount p + per).
Proof.
  revert st. induction ps as [|a ps IH]; intros st Hnd Hin Hf Hp; [destruct Hin|].
  simpl in Hnd. apply NoDup_cons in Hnd as [Hnot Hnd]. rewrite list_elem_of_In in Hnot.
  destruct Hin as [<-|Hin].
  - cbn [updateEach]. rewrite (update_success F _ _ _ Hf Hp).
    rewrite updateEach_other by exact Hnot.
    unfold projectAmount. simpl. by apply find_setAmount_same.
  - cbn [updateEach].
    destruct (projectsApi_update (ledgerApi F) (p_id a) (p_currentAmount a + per) st) as [s|e] eqn:E.
    + apply IH; try done.
      apply update_ok in E as (_ & _ & E3 & _).
      unfold hasProject in *. rewrite E3, existsb_setAmount. exact Hp.
    + apply IH; done.
Qed.

Lemma fold_applyShare_frame u l st :
  donations (fold_left (applyShare u) l st) = donations st /\
  storeProjects (fold_left (applyShare u) l st) = storeProjects st.
Proof.
  revert st. induction l as [|[i x] l IH]; intros st; simpl; [done|].
  destruct (IH (applyShare u st (i, x))) as [H1 H2]. rewrite H1, H2.
  unfold applyShare. simpl. by destruct (0 <? x).
Qed.

(** The store after [simulateDonation] against the ledger. *)
Lemma simulateDonation_store F userName ps amount w :
  let active := List.filter is_active ps in
  let uid := userIdOf userName in
  let st1 := afterCreate uid amount (store w) in
  store (simulateDonation (ledgerApi F) userName ps amount w) =
  if fail_create F || (amount <=? 0) then store w
  else if Nat.ltb 0 (length active) then
    if fail_distribute F then st1
    else updateEach (ledgerApi F) (amount / Z.of_nat (length active)) active
           (fold_left (applyShare uid) (distribution amount (map p_id active)) st1)
  else st1.
Proof.
  intros active uid st1. unfold simulateDonation. fold uid.
  cbn [donationsApi_create donationsApi_distributeToProjects ledgerApi].
  rewrite length_map. fold active.
  destruct (fail_create F); [done|]. unfold createDonation.
  destruct (amount <=? 0); [done|]. simpl orb. cbv iota.
  destruct (Nat.ltb 0 (length active)); cbv iota.
  - destruct (fail_distribute F); [done|]. unfold distribute. cbv iota.
    destruct (donationsApi_getDonorInfo (ledgerApi F) _ _); reflexivity.
  - destruct (donationsApi_getDonorInfo (ledgerApi F) _ _); reflexivity.
Qed.

Lemma simulateDonation_project_applied F userName ps amount w p :
  fail_create F = false -> fail_distribute F = false -> 0 < amount ->
  NoDup (map p_id (List.filter is_active ps)) -> In p (List.filter is_active ps) ->
  existsb (String.eqb (p_id p)) (fail_update F) = false ->
  hasProject (store w) (p_id p) = true ->
  projectAmount (store (simulateDonation (ledgerApi F) userName ps amount w)) (p_id p)
  = Some (p_currentAmount p
          + amount / Z.of_nat (length (List.filter is_active ps))).
Proof.
  intros Hc Hd Ha Hnd Hin Hf Hp.
  rewrite simulateDonation_store. rewrite Hc.
  replace (amount <=? 0) with false by lia. simpl orb.
  destruct (Nat.ltb 0 (length (List.filter is_active ps))) eqn:Hl.
  - rewrite Hd. apply updateEach_applied; try done.
    unfold hasProject. rewrite (proj2 (fold_applyShare_frame _ _ _)). exact Hp.
  - apply Nat.ltb_ge in Hl. destruct (List.filter is_active ps); [destruct Hin|].
    simpl in Hl. lia.
Qed.

(** *** Sums *)

Lemma zsum_app l1 l2 : zsum (l1 ++ l2) = zsum l1 + zsum l2.
Proof. induction l1 as [|x l1 IH]; simpl; lia. Qed.

Lemma zsum_perm l1 l2 : l1 ≡ₚ l2 -> zsum l1 = zsum l2.
Proof. induction 1; simpl; lia. Qed.

Lemma sum_values_empty : sum_values ∅ = 0.
Proof. unfold sum_values. by rewrite map_to_list_empty. Qed.

Lemma sum_values_insert_fresh (m : gmap string Z) k v :
  m !! k = None -> sum_values (<[k:=v]> m) = v + sum_values m.
Proof.
  intros Hk. unfold sum_values.
  rewrite (zsum_perm _ (map snd ((k, v) :: map_to_list m))); [done|].
  apply Permutation_map. by apply map_to_list_insert.
Qed.

Lemma sum_values_bump (m : gmap string Z) k delta :
  sum_values (<[k := default 0 (m !! k) + delta]> m) = sum_values m + delta.
Proof.
  destruct (m !! k) as [x|] eqn:Hk; simpl.
  - rewrite <- insert_delete_eq.
    rewrite sum_values_insert_fresh by apply lookup_delete_eq.
    rewrite <- (insert_delete_id m k x Hk) at 2.
    rewrite sum_values_insert_fresh by apply lookup_delete_eq. lia.
  - rewrite sum_values_insert_fresh by exact Hk. lia.
Qed.

(** *** Donor accounts *)

Definition acc_inv (st : Store) : Prop :=
  forall d, storedTotal st d = sum_values (storedContributions st d).

Definition history_inv (st : Store) : Prop :=
  forall d, storedTotal st d = donor_sum st d.

Lemma storedTotal_upsert u pid delta st d :
  storedTotal (upsertDonorContribution u pid delta st) d = storedTotal st d.
Proof.
  unfold storedTotal, upsertDonorContribution. simpl.
  destruct (decide (d = u)) as [->|Hne].
  - rewrite lookup_insert_eq. simpl. by destruct (donors st !! u).
  - by rewrite lookup_insert_ne by congruence.
Qed.

Lemma contributions_upsert u pid delta st d :
  sum_values (storedContributions (upsertDonorContribution u pid delta st) d)
  = sum_values (storedContributions st d) + (if String.eqb d u then delta else 0).
Proof.
  unfold storedContributions, upsertDonorContribution. simpl.
  destruct (String.eqb d u) eqn:E.
  - apply String.eqb_eq in E as ->. rewrite lookup_insert_eq. simpl.
    rewrite sum_values_bump. by destruct (donors st !! u).
  - apply String.eqb_neq in E. rewrite lookup_insert_ne by congruence. lia.
Qed.

Definition positiveShares (l : list (string * Z)) : Z :=
  zsum (map (fun pr => if 0 <? snd pr then snd pr else 0) l).

Lemma storedTotal_fold u l st d :
  storedTotal (fold_left (applyShare u) l st) d = storedTotal st d.
Proof.
  revert st. induction l as [|pr l IH]; intros st; simpl; [done|].
  rewrite IH. unfold applyShare. destruct (0 <? snd pr); [|done].
  apply storedTotal_upsert.
Qed.

Lemma contributions_fold u l st d :
  sum_values (storedContributions (fold_left (applyShare u) l st) d)
  = sum_values (storedContributions st d)
    + (if String.eqb d u then positiveShares l else 0).
Proof.
  revert st. induction l as [|pr l IH]; intros st; simpl.
  - destruct (String.eqb d u); unfold positiveShares; simpl; lia.
  - rewrite IH. unfold applyShare, positiveShares. simpl.
    destruct (0 <? snd pr) eqn:Hp.
    + rewrite contributions_upsert. destruct (String.eqb d u); fold (positiveShares l); lia.
    + destruct (String.eqb d u); fold (positiveShares l); lia.
Qed.

Lemma zsum_const (ids : list string) share :
  zsum (map snd (map (fun i => (i, share)) ids)) = Z.of_nat (length ids) * share.
Proof. induction ids as [|i ids IH]; simpl; [lia|]. rewrite IH. lia. Qed.

(** The spec's distribution engine conserves the amount exactly. *)
Lemma distribution_sum amount ids :
  ids <> [] -> zsum (map snd (distribution amount ids)) = amount.
Proof.
  destruct ids as [|first rest]; [done|]. intros _. simpl.
  rewrite zsum_const. lia.
Qed.

Lemma distribution_nonneg amount ids :
  0 <= amount -> Forall (fun pr => 0 <= snd pr) (distribution amount ids).
Proof.
  intros Ha. destruct ids as [|first rest]; simpl; [constructor|].
  set (n := Z.of_nat (S (length rest))).
  assert (Hn : 0 < n) by (unfold n; lia).
  pose proof (Z.div_pos amount n Ha Hn).
  pose proof (Z.mod_pos_bound amount n Hn). pose proof (Z.div_mod amount n).
  constructor; simpl.
  - lia.
  - apply List.Forall_forall. intros x Hx. apply in_map_iff in Hx as (i & <- & _). simpl. lia.
Qed.

Lemma positiveShares_nonneg l :
  Forall (fun pr => 0 <= snd pr) l -> positiveShares l = zsum (map snd l).
Proof.
  unfold positiveShares. induction 1 as [|pr l Hpr _ IH]; simpl; [done|].
  rewrite IH. destruct (0 <? snd pr) eqn:E; [lia|].
  apply Z.ltb_ge in E. lia.
Qed.

Lemma donor_sum_afterCreate u a st d :
  donor_sum (afterCreate u a st) d
  = donor_sum st d + (if String.eqb d u then a else 0).
Proof.
  unfold donor_sum, afterCreate. simpl. rewrite List.filter_app, map_app, zsum_app.
  simpl. rewrite (String.eqb_sym u d). destruct (String.eqb d u); simpl; lia.
Qed.

Lemma storedTotal_updateEach F per ps st d :
  storedTotal (updateEach (ledgerApi F) per ps st) d = storedTotal st d.
Proof.
  unfold storedTotal. by rewrite (proj1 (proj2 (updateEach_frame F per ps st))).
Qed.

Lemma contributions_updateEach F per ps st d :
  storedContributions (updateEach (ledgerApi F) per ps st) d = storedContributions st d.
Proof.
  unfold storedContributions. by rewrite (proj1 (proj2 (updateEach_frame F per ps st))).
Qed.

Lemma donor_sum_updateEach F per ps st d :
  donor_sum (updateEach (ledgerApi F) per ps st) d = donor_sum st d.
Proof.
  unfold donor_sum. by rewrite (proj1 (updateEach_frame F per ps st)).
Qed.

Lemma donor_sum_fold u l st d :
  donor_sum (fold_left (applyShare u) l st) d = donor_sum st d.
Proof. unfold donor_sum. by rewrite (proj1 (fold_applyShare_frame u l st)). Qed.

Lemma storedTotal_afterCreate u a st d :
  storedTotal (afterCreate u a st) d
  = storedTotal st d + (if String.eqb d u then a else 0).
Proof.
  unfold storedTotal, afterCreate, creditDonor. simpl.
  destruct (String.eqb d u) eqn:E.
  - apply String.eqb_eq in E as ->. rewrite lookup_insert_eq. simpl.
    destruct (donors st !! u); simpl; lia.
  - apply String.eqb_neq in E. rewrite lookup_insert_ne by congruence.
    destruct (donors st !! d); lia.
Qed.

Lemma contributions_afterCreate u a st d :
  storedContributions (afterCreate u a st) d = storedContributions st d.
Proof.
  unfold storedContributions, afterCreate, creditDonor. simpl.
  destruct (decide (d = u)) as [->|Hne].
  - rewrite lookup_insert_eq. simpl. by destruct (donors st !! u).
  - by rewrite lookup_insert_ne by congruence.
Qed.

Lemma donors_afterCreate_other u a st d :
  d <> u -> donors (afterCreate u a st) !! d = donors st !! d.
Proof.
  intros Hne. unfold afterCreate, creditDonor. simpl.
  by rewrite lookup_insert_ne by congruence.
Qed.

(** *** Whole runs against the ledger *)

Lemma getDonorAccount_total d st :
  di_totalDonated (getDonorAccount d st) = Some (storedTotal st d).
Proof. unfold getDonorAccount, storedTotal. by destruct (donors st !! d). Qed.

Lemma getDonorAccount_contributions d st :
  di_projectContributions (getDonorAccount d st) = Some (storedContributions st d).
Proof. unfold getDonorAccount, storedContributions. by destruct (donors st !! d). Qed.

(** The stored total moves by the amount exactly when the Donation is
    persisted, whatever happens afterwards. *)
Lemma simulateDonation_storedTotal F userName ps amount w d :
  storedTotal (store (simulateDonation (ledgerApi F) userName ps amount w)) d
  = storedTotal (store w) d
    + (if fail_create F || (amount <=? 0) then 0
       else if String.eqb d (userIdOf userName) then amount else 0).
Proof.
  rewrite simulateDonation_store.
  destruct (fail_create F || (amount <=? 0)); [lia|].
  destruct (Nat.ltb 0 _); [destruct (fail_distribute F)|].
  all: rewrite ?storedTotal_updateEach, ?storedTotal_fold; apply storedTotal_afterCreate.
Qed.

Lemma simulateDonation_history_inv F userName ps amount w :
  history_inv (store w) ->
  history_inv (store (simulateDonation (ledgerApi F) userName ps amount w)).
Proof.
  intros Hinv d. rewrite simulateDonation_storedTotal, simulateDonation_store.
  destruct (fail_create F || (amount <=? 0)); [rewrite (Hinv d); lia|].
  destruct (Nat.ltb 0 _); [destruct (fail_distribute F)|].
  all: rewrite ?donor_sum_updateEach, ?donor_sum_fold, donor_sum_afterCreate, (Hinv d);
       reflexivity.
Qed.

Lemma simulateDonation_acc_inv F userName ps amount w :
  fail_distribute F = false ->
  (0 < length (List.filter is_active ps))%nat ->
  acc_inv (store w) ->
  acc_inv (store (simulateDonation (ledgerApi F) userName ps amount w)).
Proof.
  intros Hd Hl Hinv d. rewrite simulateDonation_storedTotal, simulateDonation_store.
  destruct (fail_create F || (amount <=? 0)) eqn:E; [rewrite (Hinv d); lia|].
  apply orb_false_iff in E as [_ Ha]. apply Z.leb_gt in Ha.
  apply Nat.ltb_lt in Hl as Hl'. rewrite Hl', Hd.
  rewrite contributions_updateEach, contributions_fold, contributions_afterCreate.
  rewrite positiveShares_nonneg by (apply distribution_nonneg; lia).
  rewrite distribution_sum.
  - rewrite (Hinv d). lia.
  - destruct (List.filter is_active ps); simpl in *; [lia|done].
Qed.

(** With no active project, the run persists the Donation and nothing
    else. *)
Lemma simulateDonation_store_noactive F userName ps amount w :
  fail_create F = false -> List.filter is_active ps = [] -> 0 < amount ->
  store (simulateDonation (ledgerApi F) userName ps amount w)
  = afterCreate (userIdOf userName) amount (store w).
Proof.
  intros Hc Hf Ha. rewrite simulateDonation_store, Hc, Hf. simpl.
  by replace (amount <=? 0) with false by lia.
Qed.

Lemma simulateDonation_hasProject F userName ps amount w q :
  hasProject (store (simulateDonation (ledgerApi F) userName ps amount w)) q
  = hasProject (store w) q.
Proof.
  rewrite simulateDonation_store.
  destruct (fail_create F || (amount <=? 0)); [done|].
  destruct (Nat.ltb 0 _); [|done].
  destruct (fail_distribute F); [done|].
  rewrite (proj2 (proj2 (updateEach_frame _ _ _ _))).
  unfold hasProject. by rewrite (proj2 (fold_applyShare_frame _ _ _)).
Qed.

(** The success path of [simulateDonation] against the ledger. *)
Lemma simulateDonation_client_success F userName ps amount w :
  fail_create F = false -> 0 < amount ->
  fail_distribute F = false -> fail_donorInfo F = false ->
  let w' := simulateDonation (ledgerApi F) userName ps amount w in
  client w' =
  set_showDonation false (set_toast (Some (toast_thank_you amount))
    (fetchProjects (ledgerApi F) (store w')
      (applyDonorInfo amount (getDonorAccount (userIdOf userName) (store w'))
         (set_toast (Some toast_processing_payment) (client w))))).
Proof.
  intros Hc Ha Hd Hi w'. subst w'. unfold simulateDonation. cbv zeta.
  cbn [ledgerApi donationsApi_create donationsApi_distributeToProjects
       donationsApi_getDonorInfo].
  rewrite Hc. unfold createDonation. replace (amount <=? 0) with false by lia.
  cbv iota. destruct (Nat.ltb 0 _); [rewrite Hd|]; cbv iota; rewrite Hi; reflexivity.
Qed.

Lemma simulateDonation_client_noactive F userName ps amount w :
  fail_create F = false -> 0 < amount ->
  List.filter is_active ps = [] -> fail_donorInfo F = false ->
  let w' := simulateDonation (ledgerApi F) userName ps amount w in
  client w' =
  set_showDonation false (set_toast (Some (toast_thank_you amount))
    (fetchProjects (ledgerApi F) (store w')
      (applyDonorInfo amount (getDonorAccount (userIdOf userName) (store w'))
         (set_toast (Some toast_processing_payment) (client w))))).
Proof.
  intros Hc Ha Hf Hi w'. subst w'. unfold simulateDonation. cbv zeta.
  cbn [ledgerApi donationsApi_create donationsApi_distributeToProjects
       donationsApi_getDonorInfo].
  rewrite Hc, Hf. unfold createDonation. replace (amount <=? 0) with false by lia.
  cbv iota. simpl length. cbv iota. rewrite Hi; reflexivity.
Qed.

Lemma fetchProjects_user {St} (api : Api St) st c :
  user (fetchProjects api st c) = user c /\
  localStorage (fetchProjects api st c) = localStorage c.
Proof. unfold fetchProjects. by destruct (projectsApi_getAll api st). Qed.

Lemma simulateDonation_donors F F' userName ps amount w :
  fail_create F = fail_create F' -> fail_distribute F = fail_distribute F' ->
  donors (store (simulateDonation (ledgerApi F) userName ps amount w))
  = donors (store (simulateDonation (ledgerApi F') userName ps amount w)).
Proof.
  intros Hc Hd. rewrite !simulateDonation_store, Hc, Hd.
  destruct (fail_create F' || (amount <=? 0)); [done|].
  destruct (Nat.ltb 0 _); [|done].
  destruct (fail_distribute F'); [done|].
  by rewrite !(proj1 (proj2 (updateEach_frame _ _ _ _))).
Qed.

(** Any backend: [simulateDonation] ends either on the failure toast
    with the rest of the client state untouched, or on the success path
    after a donor-info read at the final backend state. *)
Lemma simulateDonation_client_cases {St} (api : Api St) userName ps amount w :
  let w' := simulateDonation api userName ps amount w in
  client w' = set_toast (Some error_donation_failed)
                (set_toast (Some toast_processing_payment) (client w)) \/
  exists info, donationsApi_getDonorInfo api (userIdOf userName) (store w') = Ok info /\
    client w' = set_showDonation false (set_toast (Some (toast_thank_you amount))
                  (fetchProjects api (store w')
                     (applyDonorInfo amount info
                        (set_toast (Some toast_processing_payment) (client w))))).
Proof.
  intros w'. subst w'. unfold simulateDonation. cbv zeta.
  destruct (donationsApi_create api _ amount (store w)) as [st1|e]; [|by left].
  destruct (Nat.ltb 0 _).
  - destruct (donationsApi_distributeToProjects api _ amount _ st1) as [st2|e]; [|by left].
    destruct (donationsApi_getDonorInfo api _ (updateEach api _ _ st2)) as [info|e] eqn:E;
      [right; exists info; by split | by left].
  - destruct (donationsApi_getDonorInfo api _ st1) as [info|e] eqn:E;
      [right; exists info; by split | by left].
Qed.

End Proofs.

(** * Claims *)
Module Claims.
Import Ledger Examples Proofs.

(** C1 (counterexample): [amount = 10000] over three active projects
    P1, P2, P3 at [0]: [simulateDonation] writes [3333] to every
    project, so the allocation sums to [9999] and P1 does not get
    [3334]. *)
Lemma C1_remainder_dropped :
  let w := simulateDonation (ledgerApi noFaults) "" threeProjects 10000
             (world0 threeProjects) in
  map p_currentAmount (storeProjects (store w)) = [3333; 3333; 3333] /\
  zsum (map p_currentAmount (storeProjects (store w))) <> 10000.
Proof. split; vm_compute; [reflexivity | discriminate]. Qed.

(** C1 (amended): every active project [p] present in the store is set
    to its snapshot amount plus [floor(amount / n)], [n] being the number
    of active projects; the [n] allocations sum to [amount - amount mod n]
    (the remainder, [0 <= amount mod n < n], is dropped). *)
Theorem C1_floor_share userName ps amount w p :
  0 < amount ->
  NoDup (map p_id (List.filter is_active ps)) ->
  In p (List.filter is_active ps) ->
  hasProject (store w) (p_id p) = true ->
  let n := Z.of_nat (length (List.filter is_active ps)) in
  projectAmount (store (simulateDonation (ledgerApi noFaults) userName ps amount w))
    (p_id p) = Some (p_currentAmount p + amount / n) /\
  n * (amount / n) = amount - amount mod n /\ 0 <= amount mod n < n.
Proof.
  intros Ha Hnd Hin Hp n.
  assert (Hn : 0 < n).
  { unfold n. destruct (List.filter is_active ps); [destruct Hin|]. simpl. lia. }
  split; [|split].
  - apply simulateDonation_project_applied; done.
  - pose proof (Z.div_mod amount n). lia.
  - apply Z.mod_pos_bound. exact Hn.
Qed.

Lemma C1_floor_share_witness :
  projectAmount (store (simulateDonation (ledgerApi noFaults) "" threeProjects 10000
                          (world0 threeProjects))) "P1" = Some 3333 /\
  3 * 3333 = 10000 - 10000 mod 3.
Proof.
  destruct (C1_floor_share "" threeProjects 10000 (world0 threeProjects)
              (project "P1" 0 PActive)) as [H1 [H2 _]].
  - lia.
  - apply (bool_decide_unpack _). vm_compute. reflexivity.
  - simpl. left. reflexivity.
  - vm_compute. reflexivity.
  - split; [exact H1 | exact H2].
Defined.

(** C7: each project update is applied on its own: whatever updates of
    other projects throw, every active project whose own update does not
    throw and that exists in the store ends at snapshot amount plus
    [floor(amount / n)], once the donation was created and distributed. *)
Theorem C7_update_independent F userName ps amount w p :
  fail_create F = false -> fail_distribute F = false -> 0 < amount ->
  NoDup (map p_id (List.filter is_active ps)) -> In p (List.filter is_active ps) ->
  existsb (String.eqb (p_id p)) (fail_update F) = false ->
  hasProject (store w) (p_id p) = true ->
  projectAmount (store (simulateDonation (ledgerApi F) userName ps amount w)) (p_id p)
  = Some (p_currentAmount p
          + amount / Z.of_nat (length (List.filter is_active ps))).
Proof. exact (simulateDonation_project_applied F userName ps amount w p). Qed.

Lemma C7_update_independent_witness :
  projectAmount (store (simulateDonation (ledgerApi (mkFaults false false ["P1"; "P2"] false false))
                          "" threeProjects 10000 (world0 threeProjects))) "P3" = Some 3333.
Proof.
  apply (C7_update_independent (mkFaults false false ["P1"; "P2"] false false)
           "" threeProjects 10000 (world0 threeProjects) (project "P3" 0 PActive)).
  - reflexivity.
  - reflexivity.
  - lia.
  - apply (bool_decide_unpack _). vm_compute. reflexivity.
  - simpl. right. right. left. reflexivity.
  - vm_compute. reflexivity.
  - vm_compute. reflexivity.
Defined.


(** C2: over every sequence of donations, whatever calls fail and
    whether or not a project is active, every donor's stored
    [totalDonated] stays equal to the sum of that donor's Donation
    records, so the donor read returns that sum. *)
Theorem C2_total_matches_history F amounts w :
  history_inv (store w) ->
  let w' := donationSequence (ledgerApi F) amounts w in
  history_inv (store w') /\
  forall d, di_totalDonated (getDonorAccount d (store w')) = Some (donor_sum (store w') d).
Proof.
  intros Hinv w'.
  assert (H : history_inv (store w')).
  { unfold w'. clear w'. revert w Hinv.
    induction amounts as [|a rest IH]; intros w Hinv; simpl; [exact Hinv|].
    apply IH. by apply simulateDonation_history_inv. }
  split; [exact H|]. intros d. rewrite getDonorAccount_total. by rewrite H.
Qed.

(** "guest" donates 5000 twice while no project is active: the donor
    read returns 10000. *)
Lemma C2_total_matches_history_witness :
  let w := mkWorld (mkStore [] [project "P1" 0 PVoting] ∅) (client0 [project "P1" 0 PVoting]) in
  di_totalDonated (getDonorAccount "guest"
    (store (donationSequence (ledgerApi noFaults) [5000; 5000] w))) = Some 10000.
Proof.
  intros w.
  assert (H0 : history_inv (store w)).
  { intros d. unfold storedTotal, donor_sum. simpl. by rewrite lookup_empty. }
  refine (eq_trans (proj2 (C2_total_matches_history noFaults [5000; 5000] w H0) "guest") _).
  vm_compute. reflexivity.
Defined.

(** C3 (counterexample): a first donation of 5000 by "guest" while no
    project is active: the Donation is counted in the stored
    [totalDonated] (5000) but no share is attributed, so the stored
    [projectContributions] stay empty (sum 0); the client's copy is the
    same. *)
Lemma C3_unattributed_unbalanced :
  let w := simulateDonation (ledgerApi noFaults) "" [] 5000 (world0 []) in
  storedTotal (store w) "guest" = 5000 /\
  storedContributions (store w) "guest" = ∅ /\ sum_values ∅ = 0 /\
  totalDonated (user (client w)) = Some 5000 /\
  projectContributions (user (client w)) = Some ∅.
Proof. vm_compute. repeat split. Qed.

(** C3 (amended): a donation that is created and distributed over at
    least one active project keeps every stored account with
    [totalDonated] equal to the sum of its [projectContributions] if it
    was so before, and the client's copy read back after it (the donor's
    earlier total being non-negative) is balanced too; a donation created
    while no project is active leaves the donor's [projectContributions]
    as they were and makes the stored [totalDonated] exceed their sum by
    the amount. *)
Theorem C3_account_balanced F userName ps amount w :
  acc_inv (store w) -> fail_create F = false -> 0 < amount ->
  let w' := simulateDonation (ledgerApi F) userName ps amount w in
  let u := userIdOf userName in
  ((0 < length (List.filter is_active ps))%nat -> fail_distribute F = false ->
   acc_inv (store w') /\
   (fail_donorInfo F = false -> 0 <= storedTotal (store w) u ->
    exists pc, projectContributions (user (client w')) = Some pc /\
               totalDonated (user (client w')) = Some (sum_values pc))) /\
  (List.filter is_active ps = [] ->
   storedContributions (store w') u = storedContributions (store w) u /\
   storedTotal (store w') u = sum_values (storedContributions (store w') u) + amount).
Proof.
  intros Hinv Hc Ha w' u.
  assert (Htot : storedTotal (store w') u = storedTotal (store w) u + amount).
  { unfold w'. rewrite simulateDonation_storedTotal, Hc.
    replace (amount <=? 0) with false by lia. simpl orb. cbv iota.
    unfold u. by rewrite String.eqb_refl. }
  split.
  - intros Hl Hd.
    assert (Hinv' : acc_inv (store w')) by (by apply simulateDonation_acc_inv).
    split; [exact Hinv'|]. intros Hi Hpos.
    unfold w'. rewrite (simulateDonation_client_success F userName ps amount w Hc Ha Hd Hi).
    fold w'. fold u. cbn [user set_showDonation set_toast].
    rewrite (proj1 (fetchProjects_user _ _ _)).
    pose proof (Hinv' u) as Hu.
    unfold applyDonorInfo, getDonorAccount. unfold storedTotal, storedContributions in *.
    destruct (donors (store w') !! u) as [acc|] eqn:E; [|lia].
    cbn. exists (acc_projectContributions acc). split; [done|].
    unfold js_or_num. rewrite (proj2 (Z.eqb_neq _ _)) by lia.
    by rewrite Hu.
  - intros Hf.
    assert (Hst : store w' = afterCreate u amount (store w))
      by (by apply simulateDonation_store_noactive).
    assert (Hpc : storedContributions (store w') u = storedContributions (store w) u)
      by (rewrite Hst; apply contributions_afterCreate).
    split; [exact Hpc|]. rewrite Htot, Hpc, (Hinv u). lia.
Qed.

Lemma C3_account_balanced_witness :
  acc_inv (store (simulateDonation (ledgerApi noFaults) "" threeProjects 5000
                    (world0 threeProjects))).
Proof.
  assert (H0 : acc_inv (store (world0 threeProjects))).
  { intros d. unfold storedTotal, storedContributions. simpl.
    rewrite lookup_empty. by rewrite sum_values_empty. }
  exact (proj1 (proj1 (C3_account_balanced noFaults "" threeProjects 5000
                   (world0 threeProjects) H0 eq_refl ltac:(lia))
                   ltac:(simpl; lia) eq_refl)).
Defined.

(** C4: with no active project, a donation that is created appends its
    Donation record, counts the amount in the donor's stored
    [totalDonated], leaves every project and every other donor account
    as it was; the client's [totalDonated] becomes the new stored total
    once the donor read succeeds (the earlier total being
    non-negative). *)
Theorem C4_no_active_projects F userName ps amount w :
  fail_create F = false -> List.filter is_active ps = [] -> 0 < amount ->
  let w' := simulateDonation (ledgerApi F) userName ps amount w in
  let u := userIdOf userName in
  donations (store w') = (donations (store w) ++ [(u, amount)])%list /\
  storeProjects (store w') = storeProjects (store w) /\
  storedTotal (store w') u = storedTotal (store w) u + amount /\
  (forall d, d <> u -> donors (store w') !! d = donors (store w) !! d) /\
  (fail_donorInfo F = false -> 0 <= storedTotal (store w) u ->
   totalDonated (user (client w')) = Some (storedTotal (store w) u + amount)).
Proof.
  intros Hc Hf Ha w' u.
  assert (Hst : store w' = afterCreate u amount (store w))
    by (by apply simulateDonation_store_noactive).
  assert (Htot : storedTotal (store w') u = storedTotal (store w) u + amount).
  { rewrite Hst, storedTotal_afterCreate, String.eqb_refl. lia. }
  split; [by rewrite Hst|]. split; [by rewrite Hst|]. split; [exact Htot|].
  split; [intros d Hd; rewrite Hst; by apply donors_afterCreate_other|].
  intros Hi Hpos.
  unfold w'. rewrite (simulateDonation_client_noactive F userName ps amount w Hc Ha Hf Hi).
  fold w'. fold u. cbn [user set_showDonation set_toast].
  rewrite (proj1 (fetchProjects_user _ _ _)). cbn.
  rewrite getDonorAccount_total, Htot. unfold js_or_num.
  by rewrite (proj2 (Z.eqb_neq _ _)) by lia.
Qed.

(** "guest" already has a stored total of 5000 and donates 5000 while no
    project is active: the stored total and the client's [totalDonated]
    reach 10000. *)
Lemma C4_no_active_projects_witness :
  let ps := [project "P1" 5000 PVoting] in
  let st := mkStore [("guest", 5000)] ps
              (<["guest" := mkDonorAccount 5000 (<["P1" := 5000]> ∅)]> ∅) in
  let w := simulateDonation (ledgerApi noFaults) "" ps 5000 (mkWorld st (client0 ps)) in
  storedTotal (store w) "guest" = 10000 /\ totalDonated (user (client w)) = Some 10000.
Proof.
  intros ps st w.
  destruct (C4_no_active_projects noFaults "" ps 5000 (mkWorld st (client0 ps))
              eq_refl eq_refl ltac:(lia)) as (_ & _ & H3 & _ & H5).
  split.
  - exact H3.
  - exact (H5 eq_refl ltac:(vm_compute; discriminate)).
Defined.

(** C5: a non-positive amount is rejected by [createDonation] with
    [ValidationError] before anything is written: the backend state,
    the donor state and localStorage are unchanged, only the failure
    toast is shown (whatever faults the backend has). *)
Theorem C5_nonpositive_rejected F userName ps amount w :
  amount <= 0 ->
  let w' := simulateDonation (ledgerApi F) userName ps amount w in
  createDonation (userIdOf userName) amount (store w) = Err ValidationError /\
  store w' = store w /\ user (client w') = user (client w) /\
  localStorage (client w') = localStorage (client w) /\
  toast (client w') = Some error_donation_failed.
Proof.
  intros Hle w'.
  assert (Hc : createDonation (userIdOf userName) amount (store w) = Err ValidationError).
  { unfold createDonation. by replace (amount <=? 0) with true by lia. }
  split; [exact Hc|]. unfold w', simulateDonation. cbv zeta.
  cbn [ledgerApi donationsApi_create].
  destruct (fail_create F); [done|]. rewrite Hc. done.
Qed.

Lemma C5_nonpositive_rejected_witness :
  store (simulateDonation (ledgerApi noFaults) "" threeProjects (-5000)
           (world0 threeProjects)) = store (world0 threeProjects).
Proof.
  exact (proj1 (proj2 (C5_nonpositive_rejected noFaults "" threeProjects (-5000)
                         (world0 threeProjects) ltac:(lia)))).
Defined.

(** C6 (counterexample): the update of P2 throws: P2 is not credited,
    and the client still shows the plain thank-you toast. *)
Lemma C6_partial_failure_reported_as_success :
  let F := mkFaults false false ["P2"] false false in
  let w := simulateDonation (ledgerApi F) "" threeProjects 10000 (world0 threeProjects) in
  projectAmount (store w) "P2" = Some 0 /\ projectAmount (store w) "P1" = Some 3333 /\
  toast (client w) = Some (toast_thank_you 10000).
Proof. vm_compute. repeat split. Qed.

(** C6 (amended): whichever project updates throw, once the donation is
    created and distributed and the donor read succeeds the client shows
    the plain thank-you toast, closes the dialog and holds the same donor
    state as when no update throws; no failed project id is reported. *)
Theorem C6_partial_failure_silent F userName ps amount w :
  fail_create F = false -> 0 < amount ->
  fail_distribute F = false -> fail_donorInfo F = false ->
  let w' := simulateDonation (ledgerApi F) userName ps amount w in
  let wOk := simulateDonation (ledgerApi (mkFaults false false [] false (fail_getAll F)))
               userName ps amount w in
  toast (client w') = Some (toast_thank_you amount) /\
  showDonation (client w') = false /\
  user (client w') = user (client wOk).
Proof.
  intros Hc Ha Hd Hi w' wOk.
  unfold w', wOk.
  rewrite (simulateDonation_client_success F userName ps amount w Hc Ha Hd Hi).
  rewrite (simulateDonation_client_success (mkFaults false false [] false (fail_getAll F))
             userName ps amount w eq_refl Ha eq_refl eq_refl).
  split; [done|]. split; [done|].
  cbn [user set_showDonation set_toast].
  rewrite !(proj1 (fetchProjects_user _ _ _)).
  unfold applyDonorInfo, getDonorAccount.
  rewrite (simulateDonation_donors F (mkFaults false false [] false (fail_getAll F)));
    [done | exact Hc | exact Hd].
Qed.

Lemma C6_partial_failure_silent_witness :
  toast (client (simulateDonation (ledgerApi (mkFaults false false ["P2"] false false))
                   "" threeProjects 10000 (world0 threeProjects)))
  = Some (toast_thank_you 10000).
Proof.
  exact (proj1 (C6_partial_failure_silent (mkFaults false false ["P2"] false false)
                  "" threeProjects 10000 (world0 threeProjects)
                  eq_refl ltac:(lia) eq_refl eq_refl)).
Defined.


(** C8 (counterexample): two donations of 10000 started from the same
    render, single active project P1 at 0: each writes
    [snapshot + 10000], so P1 ends at 10000, not 20000. *)
Lemma C8_lost_update :
  let ps := [project "P1" 0 PActive] in
  let w := concurrentDonations (ledgerApi noFaults) 2 "" ps 10000 (world0 ps) in
  projectAmount (store w) "P1" = Some 10000 /\
  projectAmount (store w) "P1" <> Some (Z.of_nat 2 * 10000).
Proof. vm_compute. split; [reflexivity | discriminate]. Qed.

(** C8 (amended): the project total is written as the closure's
    snapshot [currentAmount] plus the share (a read-modify-write PATCH,
    no atomic increment): [n >= 1] donations of [amount] started from
    the same snapshot, single active project [p], leave
    [p.currentAmount = snapshot + amount]; [n - 1] increments are lost. *)
Theorem C8_stale_snapshot n userName ps amount w p :
  (0 < n)%nat -> 0 < amount ->
  List.filter is_active ps = [p] ->
  hasProject (store w) (p_id p) = true ->
  projectAmount (store (concurrentDonations (ledgerApi noFaults) n userName ps amount w))
    (p_id p) = Some (p_currentAmount p + amount).
Proof.
  intros Hn Ha Hf. revert w. induction n as [|k IH]; intros w Hp; [lia|].
  cbn [concurrentDonations]. destruct k as [|k].
  - cbn [concurrentDonations].
    rewrite (simulateDonation_project_applied noFaults userName ps amount w p);
      try done.
    + rewrite Hf. simpl. by rewrite Z.div_1_r.
    + rewrite Hf. simpl. constructor; [set_solver | constructor].
    + rewrite Hf. simpl. by left.
  - apply IH; [lia|]. by rewrite simulateDonation_hasProject.
Qed.

Lemma C8_stale_snapshot_witness :
  projectAmount (store (concurrentDonations (ledgerApi noFaults) 3 ""
                          [project "P1" 0 PActive] 10000
                          (world0 [project "P1" 0 PActive]))) "P1" = Some 10000.
Proof.
  apply (C8_stale_snapshot 3 "" [project "P1" 0 PActive] 10000
           (world0 [project "P1" 0 PActive]) (project "P1" 0 PActive)).
  - lia.
  - lia.
  - reflexivity.
  - reflexivity.
Defined.

(** C9: once the Donation record is created, a throwing distribute call
    (with active projects) or a throwing donor read sends the call to the
    catch branch: user state and localStorage are untouched, the toast is
    the generic failure, and the Donation record stays appended. *)
Theorem C9_catch_leaves_client F userName ps amount w :
  fail_create F = false -> 0 < amount ->
  ((0 < length (List.filter is_active ps))%nat /\ fail_distribute F = true
   \/ fail_donorInfo F = true) ->
  let w' := simulateDonation (ledgerApi F) userName ps amount w in
  user (client w') = user (client w) /\
  localStorage (client w') = localStorage (client w) /\
  toast (client w') = Some error_donation_failed /\
  donations (store w') = (donations (store w) ++ [(userIdOf userName, amount)])%list.
Proof.
  intros Hc Ha Hcase w'.
  assert (Hdon : donations (store w')
                 = (donations (store w) ++ [(userIdOf userName, amount)])%list).
  { unfold w'. rewrite simulateDonation_store, Hc.
    replace (amount <=? 0) with false by lia. simpl orb.
    destruct (Nat.ltb 0 _); [|done]. destruct (fail_distribute F); [done|].
    rewrite (proj1 (updateEach_frame _ _ _ _)).
    by rewrite (proj1 (fold_applyShare_frame _ _ _)). }
  unfold w' in *. clear w'. revert Hdon.
  unfold simulateDonation. cbv zeta.
  cbn [ledgerApi donationsApi_create donationsApi_distributeToProjects
       donationsApi_getDonorInfo].
  rewrite Hc. unfold createDonation. replace (amount <=? 0) with false by lia.
  cbv iota. rewrite length_map.
  destruct Hcase as [[Hl Hd] | Hi].
  - apply Nat.ltb_lt in Hl. rewrite Hl, Hd. done.
  - destruct (Nat.ltb 0 _); [destruct (fail_distribute F)|]; rewrite ?Hi; done.
Qed.

Lemma C9_catch_leaves_client_witness :
  localStorage (client (simulateDonation (ledgerApi (mkFaults false true [] false false))
                          "" threeProjects 10000 (world0 threeProjects)))
  = mkLocalStorage None None.
Proof.
  destruct (C9_catch_leaves_client (mkFaults false true [] false false)
              "" threeProjects 10000 (world0 threeProjects)) as (_ & H & _).
  - reflexivity.
  - lia.
  - left. split; [simpl; lia | reflexivity].
  - exact H.
Defined.



End Claims.

(** * Further properties of the App component and the views *)
Module Extras.
Import Ledger Examples Proofs AppUI.

(** *** Helper lemmas *)

Lemma str_app_cons c (a b : string) : (String c a ++ b) = String c (a ++ b).
Proof. reflexivity. Qed.

Lemma str_app_assoc (a b c : string) : ((a ++ b) ++ c) = (a ++ (b ++ c)).
Proof. induction a as [|x a IH]; [reflexivity|]. rewrite !str_app_cons. congruence. Qed.

Lemma str_length_app (a b : string) :
  String.length (a ++ b) = (String.length a + String.length b)%nat.
Proof.
  induction a as [|x a IH]; [reflexivity|]. rewrite str_app_cons. simpl. congruence.
Qed.

Lemma prefix_app_long (a b t : string) :
  (String.length a <= String.length b)%nat ->
  String.prefix a (b ++ t) = String.prefix a b.
Proof.
  revert b. induction a as [|x a IH]; intros b Hl.
  - destruct b, t; reflexivity.
  - destruct b as [|y b]; simpl in Hl; [lia|].
    simpl. destruct (Ascii.ascii_dec x y); [apply IH; lia | reflexivity].
Qed.

Lemma replaceFirst_absent pat rep s :
  occurs pat s = false -> replaceFirst pat rep s = s.
Proof.
  induction s as [|c s IH]; intros H; simpl in H |- *;
    apply orb_false_iff in H as [H1 H2]; rewrite H1; [done|].
  by rewrite IH.
Qed.

Lemma replaceFirst_title p s :
  occurs "_title" (p ++ "_titl") = false ->
  replaceFirst "_title" "_detail" (p ++ ("_title" ++ s)) = (p ++ ("_detail" ++ s)).
Proof.
  induction p as [|c p IH]; intros H; [destruct s; reflexivity|].
  change (String c p ++ "_titl") with (String c (p ++ "_titl")) in H.
  cbn [occurs] in H. apply orb_false_iff in H as [H1 H2].
  change (String c p ++ ("_title" ++ s)) with (String c (p ++ ("_title" ++ s))).
  cbn [replaceFirst].
  assert (Hp : String.prefix "_title" (String c (p ++ ("_title" ++ s))) = false).
  { change ("_title" ++ s) with ("_titl" ++ ("e" ++ s)).
    rewrite <- str_app_assoc.
    change (String c ((p ++ "_titl") ++ ("e" ++ s)))
      with (String c (p ++ "_titl") ++ ("e" ++ s)).
    rewrite prefix_app_long; [exact H1|].
    cbn [String.length]. rewrite str_length_app. simpl. lia. }
  rewrite Hp.
  change (String c p ++ ("_detail" ++ s)) with (String c (p ++ ("_detail" ++ s))).
  by rewrite IH.
Qed.

Lemma user_set_toast t c : user (set_toast t c) = user c.
Proof. reflexivity. Qed.
Lemma ls_set_toast t c : localStorage (set_toast t c) = localStorage c.
Proof. reflexivity. Qed.
Lemma user_set_showDonation b c : user (set_showDonation b c) = user c.
Proof. reflexivity. Qed.
Lemma ls_set_showDonation b c : localStorage (set_showDonation b c) = localStorage c.
Proof. reflexivity. Qed.

Lemma js_or_num_zero x : js_or_num x 0 = default 0 x.
Proof. destruct x as [v|]; simpl; [destruct (Z.eqb_spec v 0); lia|done]. Qed.

Lemma modal_fold_shape events a :
  fold_left modalStep events a = a \/ exists n, fold_left modalStep events a = AmtNum n.
Proof.
  revert a. induction events as [|e events IH]; intros a; simpl; [by left|].
  destruct (IH (modalStep a e)) as [-> | H]; [|by right].
  right. destruct e; simpl; eexists; reflexivity.
Qed.

Lemma communityVote_for (pid vt : string) (ps : list Votes) :
  tally votesFor (communityVote pid vt ps)
  = tally votesFor ps
    + (if String.eqb vt "for"
       then Z.of_nat (length (List.filter (fun p => String.eqb (v_id p) pid) ps)) else 0).
Proof.
  unfold tally. induction ps as [|p ps IH]; simpl; [by destruct (String.eqb vt "for")|].
  rewrite IH. destruct (String.eqb (v_id p) pid); simpl.
  - rewrite !js_or_num_zero. destruct (String.eqb vt "for"); simpl; lia.
  - destruct (String.eqb vt "for"); lia.
Qed.

Lemma communityVote_against (pid vt : string) (ps : list Votes) :
  tally votesAgainst (communityVote pid vt ps)
  = tally votesAgainst ps
    + (if String.eqb vt "against"
       then Z.of_nat (length (List.filter (fun p => String.eqb (v_id p) pid) ps)) else 0).
Proof.
  unfold tally. induction ps as [|p ps IH]; simpl; [by destruct (String.eqb vt "against")|].
  rewrite IH. destruct (String.eqb (v_id p) pid); simpl.
  - rewrite !js_or_num_zero. destruct (String.eqb vt "against"); simpl; lia.
  - destruct (String.eqb vt "against"); lia.
Qed.

Lemma initiativeVote_list (pid type vt : string) (ps : list Votes) (a : option Votes) :
  ((type = "up" /\ vt = "for") \/ (type = "down" /\ vt = "against")) ->
  fst (initiativeVote pid type ps a) = communityVote pid vt ps.
Proof.
  intros Ht. revert a. induction ps as [|p ps IH]; intros a; [done|].
  simpl. destruct (String.eqb (v_id p) pid); simpl; rewrite IH; [|done].
  by destruct Ht as [[-> ->]|[-> ->]].
Qed.

Lemma initiativeVote_active (pid type : string) (ps : list Votes) (a : option Votes) :
  snd (initiativeVote pid type ps a)
  = match rev (List.filter (fun q => String.eqb (v_id q) pid) (fst (initiativeVote pid type ps a))) with
    | q :: _ => Some q
    | [] => a
    end.
Proof.
  revert a. induction ps as [|p ps IH]; intros a; [done|].
  simpl. destruct (String.eqb (v_id p) pid) eqn:E; simpl.
  - rewrite E. rewrite IH. simpl.
    destruct (rev (List.filter _ (fst (initiativeVote pid type ps _)))); done.
  - rewrite E. exact (IH a).
Qed.

(** *** Navigation *)

(** [getTabFromPath] inverts the [paths] of [handleTabChange] on every
    tab but [chat], and never yields [chat]. *)
Theorem tab_path_roundtrip :
  (forall tab, tab <> chat -> getTabFromPath (paths tab) = tab) /\
  (forall path, getTabFromPath path <> chat).
Proof.
  split.
  - intros [] H; try reflexivity. contradiction.
  - intros path. unfold getTabFromPath.
    destruct (String.eqb path "/fund"), (String.eqb path "/market"),
      (String.eqb path "/community"); discriminate.
Qed.

(** A tab click ends on [paths[tab]] with that tab selected, except
    [chat]: clicked away from ["/"], the URL effect resets it to [home]. *)
Theorem clickTab_result tab n :
  pathname (clickTab tab n) = paths tab /\
  activeTab (clickTab tab n) =
    match tab with
    | chat => if String.eqb (pathname n) "/" then chat else home
    | _ => tab
    end.
Proof.
  unfold clickTab, syncTabEffect, handleTabChange. cbn [pathname activeTab].
  destruct (String.eqb (paths tab) (pathname n)) eqn:E; cbn [pathname activeTab];
    (split; [reflexivity|]); destruct tab; try reflexivity;
    change (paths chat) with "/" in E; rewrite String.eqb_sym in E; rewrite E; reflexivity.
Qed.

(** *** getTimeAgo *)

(** [getTimeAgo] never shows a count below [1]. *)
Theorem getTimeAgo_count_pos now timestamp :
  match getTimeAgo now timestamp with
  | DaysAgo n | HoursAgo n | MinutesAgo n => 1 <= n
  end.
Proof.
  unfold getTimeAgo. destruct (thenTime timestamp) as [t|]; [|lia].
  destruct (now - t <? 0); [lia|].
  destruct (0 <? (now - t) / (1000 * 60 * 60) / 24) eqn:Hd; [lia|].
  destruct (0 <? (now - t) / (1000 * 60 * 60)) eqn:Hh; lia.
Qed.

(** For a valid past date the unit and the count are the floor of the
    elapsed time: days from 24 h on, hours from 1 h on, minutes (at
    least 1) below. *)
Theorem getTimeAgo_buckets now timestamp t :
  thenTime timestamp = Some t -> 0 <= now - t ->
  match getTimeAgo now timestamp with
  | DaysAgo d => 1 <= d /\ d * 86400000 <= now - t < (d + 1) * 86400000
  | HoursAgo h =>
      1 <= h /\ 86400000 > now - t /\ h * 3600000 <= now - t < (h + 1) * 3600000
  | MinutesAgo m => now - t < 3600000 /\ m = Z.max 1 ((now - t) / 60000)
  end.
Proof.
  intros Ht Hd. unfold getTimeAgo. rewrite Ht.
  replace (now - t <? 0) with false by lia.
  set (d := now - t) in *.
  rewrite Z.div_div by lia.
  pose proof (Z.div_mod d 86400000) as E1. pose proof (Z.mod_pos_bound d 86400000) as B1.
  pose proof (Z.div_mod d 3600000) as E2. pose proof (Z.mod_pos_bound d 3600000) as B2.
  change (1000 * 60 * 60 * 24) with 86400000. change (1000 * 60 * 60) with 3600000.
  change (1000 * 60) with 60000.
  destruct (0 <? d / 86400000) eqn:Hdy.
  - apply Z.ltb_lt in Hdy. lia.
  - destruct (0 <? d / 3600000) eqn:Hh; apply Z.ltb_ge in Hdy.
    + apply Z.ltb_lt in Hh. lia.
    + apply Z.ltb_ge in Hh. split; [lia | reflexivity].
Qed.

(** An invalid date or a date in the future reads as one hour ago. *)
Theorem getTimeAgo_invalid_or_future now timestamp :
  (thenTime timestamp = None \/ exists t, thenTime timestamp = Some t /\ now < t) ->
  getTimeAgo now timestamp = HoursAgo 1.
Proof.
  intros [H | (t & H & Hlt)]; unfold getTimeAgo; rewrite H; [done|].
  replace (now - t <? 0) with true by lia. done.
Qed.

(** A [null] timestamp is the epoch ([new Date(null)]): it reads as
    the days since 1970, while [undefined] reads as one hour ago. *)
Theorem getTimeAgo_null_is_epoch now :
  86400000 <= now ->
  getTimeAgo now TsNull = DaysAgo (now / 86400000) /\
  getTimeAgo now TsUndefined = HoursAgo 1.
Proof.
  intros Hn. split; [|reflexivity]. unfold getTimeAgo. cbn [thenTime]. cbv zeta.
  rewrite !Z.sub_0_r. replace (now <? 0) with false by lia.
  rewrite Z.div_div by lia. change (1000 * 60 * 60 * 24) with 86400000.
  replace (0 <? now / 86400000) with true; [reflexivity|].
  symmetry. apply Z.ltb_lt. apply Z.div_str_pos. lia.
Qed.

(** *** detailKey *)

(** A title key [p ++ "_title" ++ s] whose first ["_title"] ends the
    prefix [p] gets the detail key [p ++ "_detail" ++ s]. *)
Theorem detailKey_of_title p s :
  occurs "_title" (p ++ "_titl") = false ->
  detailKeyOf (Some (p ++ ("_title" ++ s))) = Some (p ++ ("_detail" ++ s)).
Proof.
  intros H. unfold detailKeyOf.
  replace (String.eqb (p ++ ("_title" ++ s)) "") with false.
  - by rewrite replaceFirst_title.
  - destruct p; reflexivity.
Qed.

(** A title key without ["_title"] is its own detail key, and an empty
    or absent one gives no detail key. *)
Theorem detailKey_without_title k :
  occurs "_title" k = false ->
  detailKeyOf (Some k) = (if String.eqb k "" then None else Some k) /\
  detailKeyOf None = None.
Proof.
  intros H. unfold detailKeyOf. split; [|reflexivity].
  destruct (String.eqb k ""); [reflexivity|]. by rewrite replaceFirst_absent.
Qed.

(** *** loadDonorInfo and the mount *)

(** [loadDonorInfo] never touches the projects, the toast or the modal,
    keeps the name, never takes the contributor flag away, and either
    leaves the client as it is or records a positive total. *)
Theorem loadDonorInfo_frame {St} (api : Api St) userName st c :
  let c' := loadDonorInfo api userName st c in
  projects c' = projects c /\ toast c' = toast c /\
  showDonation c' = showDonation c /\ name (user c') = name (user c) /\
  (isContributor (user c) = true -> isContributor (user c') = true) /\
  (c' = c \/
   exists t, 0 < t /\ isContributor (user c') = true /\
     status (user c') = EcoProtector /\ totalDonated (user c') = Some t /\
     contributionAmount (user c') = t /\
     localStorage c' = mkLocalStorage (Some "true") (Some t)).
Proof.
  intros c'. subst c'. unfold loadDonorInfo.
  destruct (donationsApi_getDonorInfo api (userIdOf userName) st) as [info|e].
  2: { repeat split; auto. }
  destruct (di_totalDonated info) as [t|]. 2: { repeat split; auto. }
  destruct (di_isContributor info && (0 <? t)) eqn:E. 2: { repeat split; auto. }
  apply andb_true_iff in E as [_ Ht]. apply Z.ltb_lt in Ht.
  repeat split; try reflexivity. right. exists t. repeat split; done.
Qed.

(** [loadDonorInfo] leaves the client unchanged when the request
    throws, when the donor is no contributor, or when the total is
    absent or not positive. *)
Theorem loadDonorInfo_noop {St} (api : Api St) userName st c :
  (exists e, donationsApi_getDonorInfo api (userIdOf userName) st = Err e) \/
  (exists info, donationsApi_getDonorInfo api (userIdOf userName) st = Ok info /\
     (di_isContributor info = false \/
      forall t, di_totalDonated info = Some t -> t <= 0)) ->
  loadDonorInfo api userName st c = c.
Proof.
  intros [(e & H) | (info & H & Hc)]; unfold loadDonorInfo; rewrite H; [done|].
  destruct (di_totalDonated info) as [t|] eqn:Et; [|done].
  destruct Hc as [-> | Hle]; [done|].
  specialize (Hle t eq_refl). replace (0 <? t) with false by lia.
  by rewrite andb_false_r.
Qed.

(** The mount's donor lookup is for ["Mehmon"] whatever the Telegram
    user: the mounted user and localStorage depend on the backend only
    through the donor info of ["Mehmon"], the user shows the Telegram
    name, the whole mounted client depends on the backend only through
    that donor info and the project list, and the two mount requests
    give the same client in either completion order. *)
Theorem mount_reads_initial_user {St} (api1 api2 : Api St) tg ls st :
  donationsApi_getDonorInfo api1 "Mehmon" st = donationsApi_getDonorInfo api2 "Mehmon" st ->
  user (mountClient api1 true (Some tg) ls st) = user (mountClient api2 true (Some tg) ls st) /\
  localStorage (mountClient api1 true (Some tg) ls st)
    = localStorage (mountClient api2 true (Some tg) ls st) /\
  name (user (mountClient api1 true (Some tg) ls st)) = telegramName tg /\
  (projectsApi_getAll api1 st = projectsApi_getAll api2 st ->
   mountClient api1 true (Some tg) ls st = mountClient api2 true (Some tg) ls st) /\
  mountClient api1 true (Some tg) ls st
    = loadDonorInfo api1 (name INITIAL_USER) st
        (fetchProjects api1 st (telegramInit true (Some tg) (initialClient ls))).
Proof.
  intros H.
  assert (Hl : loadDonorInfo api1 (name INITIAL_USER) st
                 (telegramInit true (Some tg) (initialClient ls))
               = loadDonorInfo api2 (name INITIAL_USER) st
                 (telegramInit true (Some tg) (initialClient ls))).
  { unfold loadDonorInfo. change (userIdOf (name INITIAL_USER)) with "Mehmon".
    by rewrite H. }
  unfold mountClient. split; [|split; [|split; [|split]]].
  - rewrite !(proj1 (fetchProjects_user _ _ _)). by rewrite Hl.
  - rewrite !(proj2 (fetchProjects_user _ _ _)). by rewrite Hl.
  - rewrite (proj1 (fetchProjects_user _ _ _)).
    pose proof (loadDonorInfo_frame api1 (name INITIAL_USER) st
                  (telegramInit true (Some tg) (initialClient ls))) as (_ & _ & _ & Hn & _).
    exact Hn.
  - intros Hg. rewrite Hl. unfold fetchProjects. by rewrite Hg.
  - unfold fetchProjects, loadDonorInfo.
    destruct (projectsApi_getAll api1 st); destruct (donationsApi_getDonorInfo api1 _ st)
      as [info|]; try reflexivity.
    all: destruct (di_totalDonated info); [|reflexivity].
    all: destruct (di_isContributor info && _); reflexivity.
Qed.

(** Outside Telegram, a reload after a successful donation restores the
    same user and localStorage, provided the backend reports the donor
    as a contributor with a positive total. *)
Theorem reload_after_donation {St} (api : Api St) ps amount w info t ls :
  name (user (client w)) = "Mehmon" ->
  toast (client (simulateDonation api "Mehmon" ps amount w)) = Some (toast_thank_you amount) ->
  donationsApi_getDonorInfo api "Mehmon" (store (simulateDonation api "Mehmon" ps amount w))
    = Ok info ->
  di_isContributor info = true -> di_totalDonated info = Some t -> 0 < t ->
  user (mountClient api false None ls (store (simulateDonation api "Mehmon" ps amount w)))
    = user (client (simulateDonation api "Mehmon" ps amount w)) /\
  localStorage (mountClient api false None ls (store (simulateDonation api "Mehmon" ps amount w)))
    = localStorage (client (simulateDonation api "Mehmon" ps amount w)).
Proof.
  intros Hn Hto Hget Hc Ht Hpos.
  set (w' := simulateDonation api "Mehmon" ps amount w) in *.
  destruct (simulateDonation_client_cases api "Mehmon" ps amount w) as [Hcl | (info' & Hi & Hcl)];
    fold w' in Hcl.
  - rewrite Hcl in Hto. discriminate.
  - change (userIdOf "Mehmon") with "Mehmon" in Hi. fold w' in Hi.
    rewrite Hget in Hi. injection Hi as <-.
    unfold mountClient.
    rewrite (proj1 (fetchProjects_user _ _ _)), (proj2 (fetchProjects_user _ _ _)).
    unfold loadDonorInfo. change (userIdOf (name INITIAL_USER)) with "Mehmon".
    rewrite Hget, Ht, Hc. replace (0 <? t) with true by lia. simpl andb. cbv iota zeta.
    destruct (fetchProjects_user api (store w')
      (applyDonorInfo amount info (set_toast (Some toast_processing_payment) (client w))))
      as [Hu Hl].
    rewrite Hcl, !user_set_showDonation, !ls_set_showDonation, !user_set_toast,
      !ls_set_toast, Hu, Hl.
    unfold applyDonorInfo. cbv zeta. cbn [user localStorage].
    rewrite user_set_toast, Hn, Ht. unfold js_or_num.
    replace (Z.eqb t 0) with false by lia. split; reflexivity.
Qed.

(** Two user names share a donor id only when they are equal or are
    [""] and ["guest"]. *)
Theorem userIdOf_collisions a b :
  userIdOf a = userIdOf b <-> a = b \/ (a = "" /\ b = "guest") \/ (a = "guest" /\ b = "").
Proof.
  unfold userIdOf.
  destruct (String.eqb_spec a ""), (String.eqb_spec b ""); subst; split; intros H;
    try tauto; try (destruct H as [H | [[H1 H2] | [H1 H2]]]; congruence).
  all: subst; right; first [left; split; reflexivity | right; split; reflexivity].
Qed.

(** The donation flow keeps the user's name, and the client's project
    list is either the one it had or the list the backend returns at
    the end. *)
Theorem simulateDonation_keeps_name {St} (api : Api St) userName ps amount w :
  let w' := simulateDonation api userName ps amount w in
  name (user (client w')) = name (user (client w)) /\
  (projects (client w') = projects (client w) \/
   projectsApi_getAll api (store w') = Ok (projects (client w'))).
Proof.
  intros w'.
  destruct (simulateDonation_client_cases api userName ps amount w) as [Hcl | (info & _ & Hcl)];
    fold w' in Hcl; rewrite Hcl.
  - split; [reflexivity | left; reflexivity].
  - unfold fetchProjects.
    destruct (projectsApi_getAll api (store w')) as [data|e] eqn:E;
      [split; [reflexivity | right; reflexivity] | split; [reflexivity | left; reflexivity]].
Qed.

(** *** FundView *)

(** The two tabs are disjoint and together list exactly the projects
    that are not in voting. *)
Theorem filteredProjects_partition ps p :
  ~ (In p (filteredProjects tab_active ps) /\ In p (filteredProjects tab_completed ps)) /\
  ((In p (filteredProjects tab_active ps) \/ In p (filteredProjects tab_completed ps))
   <-> In p ps /\ p_status p <> PVoting).
Proof.
  unfold filteredProjects. rewrite !List.filter_In.
  unfold is_active, is_completed. destruct (p_status p); split; intuition congruence.
Qed.

(** The per-project contribution is the floor share: [n] active
    projects times it never exceed the total and fall short by less
    than [n]. *)
Theorem userContribution_bounds u ps t :
  totalDonated u = Some t -> 0 < activeProjectsCount ps ->
  userContribution u ps * activeProjectsCount ps <= t <
  (userContribution u ps + 1) * activeProjectsCount ps.
Proof.
  intros Ht Hn. unfold userContribution, js_truthy. rewrite Ht. cbn [default].
  replace (0 <? activeProjectsCount ps) with true by lia.
  set (n := activeProjectsCount ps) in *.
  destruct (Z.eqb_spec t 0) as [->|Hne]; simpl.
  - lia.
  - pose proof (Z.div_mod t n) as E. pose proof (Z.mod_pos_bound t n Hn) as B. nia.
Qed.

(** For a positive total, a listed project shows the contribution
    badge exactly when it is active and the total reaches the number
    of active projects. *)
Theorem contributionBadge_iff u ps p t :
  totalDonated u = Some t -> 0 < t -> In p ps ->
  contributionBadge u ps p = true <-> is_active p = true /\ activeProjectsCount ps <= t.
Proof.
  intros Ht Hpos Hin. unfold contributionBadge.
  destruct (is_active p) eqn:Ha.
  2: { rewrite andb_false_r. split; [discriminate | intros [H _]; discriminate]. }
  assert (Hn : 0 < activeProjectsCount ps).
  { unfold activeProjectsCount.
    assert (Hf : In p (List.filter is_active ps)) by (apply List.filter_In; done).
    destruct (List.filter is_active ps); [destruct Hf | simpl; lia]. }
  unfold userContribution. rewrite Ht. simpl js_truthy.
  replace (Z.eqb t 0) with false by lia. replace (0 <? activeProjectsCount ps) with true by lia.
  simpl. rewrite andb_true_r.
  set (n := activeProjectsCount ps) in *.
  pose proof (Z.div_mod t n) as E. pose proof (Z.mod_pos_bound t n Hn) as B.
  rewrite Z.ltb_lt. split.
  - intros Hq. split; [reflexivity | nia].
  - intros [_ Hle]. nia.
Qed.

(** After a successful donation of a positive amount the thank-you
    banner shows, unless the backend reported a negative total. *)
Theorem banner_after_donation {St} (api : Api St) userName ps amount w info :
  let w' := simulateDonation api userName ps amount w in
  toast (client w') = Some (toast_thank_you amount) ->
  donationsApi_getDonorInfo api (userIdOf userName) (store w') = Ok info ->
  0 < amount ->
  (forall v, di_totalDonated info = Some v -> 0 <= v) ->
  thankYouBanner (user (client w')) = true.
Proof.
  intros w' Hto Hget Ha Hv.
  destruct (simulateDonation_client_cases api userName ps amount w) as [Hcl | (info' & Hi & Hcl)].
  - fold w' in Hcl. rewrite Hcl in Hto. discriminate.
  - fold w' in Hcl, Hi. rewrite Hget in Hi. injection Hi as <-. rewrite Hcl.
    unfold set_showDonation, set_toast. cbn [user].
    rewrite (proj1 (fetchProjects_user _ _ _)).
    unfold applyDonorInfo, thankYouBanner. cbn [user isContributor totalDonated].
    unfold js_or_num.
    destruct (di_totalDonated info) as [v|] eqn:E.
    + specialize (Hv v eq_refl). destruct (Z.eqb_spec v 0) as [->|Hne]; simpl.
      * replace (Z.eqb amount 0) with false by lia. apply Z.ltb_lt. exact Ha.
      * replace (Z.eqb v 0) with false by lia. apply Z.ltb_lt. lia.
    + simpl. replace (Z.eqb amount 0) with false by lia. apply Z.ltb_lt. exact Ha.
Qed.

(** *** DonationModal *)

(** In one opening of the modal only the last entry counts, clearing
    the field blocks the donation, and [onDonate] is never called with
    [0], while a preset clicked last is passed as it is. *)
Theorem modalSession_last_entry :
  (forall events e, modalSession (events ++ [e])%list = modalSession [e]) /\
  (forall events, modalSession (events ++ [InputChange None])%list = None) /\
  (forall events, modalSession events <> Some 0) /\
  (forall events p, In p presets -> modalSession (events ++ [PresetClick p])%list = Some p).
Proof.
  assert (Hlast : forall events e, modalSession (events ++ [e])%list = modalSession [e]).
  { intros events e. unfold modalSession. rewrite fold_left_app. reflexivity. }
  split; [exact Hlast|].
  split; [|split].
  - intros events. rewrite Hlast. reflexivity.
  - intros events. unfold modalSession.
    destruct (modal_fold_shape events AmtEmpty) as [-> | (n & ->)]; simpl; [discriminate|].
    destruct (Z.eqb_spec n 0); congruence.
  - intros events p Hp. rewrite Hlast.
    simpl in Hp. intuition subst; reflexivity.
Qed.

(** The guard lets a negative entry through: it reaches [onDonate]. *)
Theorem modalSession_negative events n :
  n < 0 -> modalSession (events ++ [InputChange (Some n)])%list = Some n.
Proof.
  intros Hn. unfold modalSession. rewrite fold_left_app. simpl.
  replace (Z.eqb n 0) with false by lia. reflexivity.
Qed.

(** *** Votes *)

(** CommunityView's vote keeps the projects and their order; at every
    position, a project with another id is unchanged and a project with
    the id gets its chosen counter set to one more than its value
    (missing counting as 0) while its other counter is unchanged (a
    missing one stays missing); the tallies move accordingly, and an
    unknown vote type does nothing. *)
Theorem communityVote_counts (pid vt : string) (ps : list Votes) :
  map v_id (communityVote pid vt ps) = map v_id ps /\
  (forall i p, nth_error ps i = Some p ->
   exists q, nth_error (communityVote pid vt ps) i = Some q /\ v_id q = v_id p /\
     (v_id p <> pid -> q = p) /\
     (v_id p = pid ->
      votesFor q = (if String.eqb vt "for" then Some (default 0 (votesFor p) + 1)
                    else votesFor p) /\
      votesAgainst q = (if String.eqb vt "against" then Some (default 0 (votesAgainst p) + 1)
                        else votesAgainst p))) /\
  tally votesFor (communityVote pid vt ps)
    = tally votesFor ps
      + (if String.eqb vt "for"
         then Z.of_nat (length (List.filter (fun p => String.eqb (v_id p) pid) ps)) else 0) /\
  tally votesAgainst (communityVote pid vt ps)
    = tally votesAgainst ps
      + (if String.eqb vt "against"
         then Z.of_nat (length (List.filter (fun p => String.eqb (v_id p) pid) ps)) else 0) /\
  (vt <> "for" -> vt <> "against" -> communityVote pid vt ps = ps).
Proof.
  split; [|split; [|split; [apply communityVote_for | split; [apply communityVote_against|]]]].
  - unfold communityVote. rewrite map_map. apply map_ext. intros p.
    by destruct (String.eqb (v_id p) pid).
  - intros i p Hi. unfold communityVote. rewrite nth_error_map, Hi. simpl.
    destruct (String.eqb_spec (v_id p) pid) as [E|E].
    + eexists. split; [reflexivity|]. split; [reflexivity|].
      split; [by intros|]. intros _. cbn [votesFor votesAgainst].
      rewrite !js_or_num_zero. split; reflexivity.
    + eexists. split; [reflexivity|]. split; [reflexivity|].
      split; [done|]. by intros.
  - intros H1 H2. unfold communityVote.
    apply String.eqb_neq in H1, H2. rewrite H1, H2.
    induction ps as [|p ps IH]; [done|]. simpl. rewrite IH.
    destruct (String.eqb (v_id p) pid); [|done]. by destruct p.
Qed.

(** InitiativeDetail's vote with ["up"]/["down"] updates the list as
    CommunityView's with ["for"]/["against"], and, for either type,
    leaves the detail view on the last updated record with the id (or as
    it was if none). *)
Theorem initiativeVote_agrees (pid : string) (ps : list Votes) (a : option Votes) :
  fst (initiativeVote pid "up" ps a) = communityVote pid "for" ps /\
  fst (initiativeVote pid "down" ps a) = communityVote pid "against" ps /\
  snd (initiativeVote pid "up" ps a)
    = match rev (List.filter (fun q => String.eqb (v_id q) pid) (communityVote pid "for" ps)) with
      | q :: _ => Some q
      | [] => a
      end /\
  snd (initiativeVote pid "down" ps a)
    = match rev (List.filter (fun q => String.eqb (v_id q) pid)
                   (communityVote pid "against" ps)) with
      | q :: _ => Some q
      | [] => a
      end.
Proof.
  split; [apply initiativeVote_list; left; split; reflexivity|].
  split; [apply initiativeVote_list; right; split; reflexivity|].
  split.
  - rewrite initiativeVote_active.
    rewrite (initiativeVote_list pid "up" "for") by (left; split; reflexivity).
    reflexivity.
  - rewrite initiativeVote_active.
    rewrite (initiativeVote_list pid "down" "against") by (right; split; reflexivity).
    reflexivity.
Qed.

(** *** Witnesses *)

Lemma getTimeAgo_buckets_witness :
  match getTimeAgo 1700090061000 (TsObject (Some 1700000000) None) with
  | DaysAgo d => 1 <= d /\ d * 86400000 <= 1700090061000 - 1700000000000
                 < (d + 1) * 86400000
  | HoursAgo h => 1 <= h /\ 86400000 > 1700090061000 - 1700000000000 /\
                  h * 3600000 <= 1700090061000 - 1700000000000
                  < (h + 1) * 3600000
  | MinutesAgo m => 1700090061000 - 1700000000000 < 3600000 /\
                    m = Z.max 1 ((1700090061000 - 1700000000000) / 60000)
  end.
Proof.
  apply (getTimeAgo_buckets 1700090061000 (TsObject (Some 1700000000) None) 1700000000000).
  - reflexivity.
  - lia.
Defined.

Lemma getTimeAgo_invalid_or_future_witness :
  getTimeAgo 1700000000000 (TsValue (Some 1800000000000)) = HoursAgo 1.
Proof.
  apply (getTimeAgo_invalid_or_future 1700000000000 (TsValue (Some 1800000000000))).
  right. exists 1800000000000. split; [reflexivity | lia].
Defined.

Lemma getTimeAgo_null_is_epoch_witness :
  getTimeAgo 1760000000000 TsNull = DaysAgo (1760000000000 / 86400000) /\
  getTimeAgo 1760000000000 TsUndefined = HoursAgo 1.
Proof. apply (getTimeAgo_null_is_epoch 1760000000000). lia. Defined.

Lemma detailKey_of_title_witness :
  detailKeyOf (Some ("project_solar" ++ ("_title" ++ "")))
  = Some ("project_solar" ++ ("_detail" ++ "")).
Proof. apply (detailKey_of_title "project_solar" ""). reflexivity. Defined.

Lemma detailKey_without_title_witness :
  detailKeyOf (Some "project_solar")
  = (if String.eqb "project_solar" "" then None else Some "project_solar") /\
  detailKeyOf None = None.
Proof. apply (detailKey_without_title "project_solar"). reflexivity. Defined.

Lemma loadDonorInfo_noop_witness :
  loadDonorInfo (ledgerApi noFaults) "" (mkStore [] [] ∅) (client0 []) = client0 [].
Proof.
  apply (loadDonorInfo_noop (ledgerApi noFaults) "" (mkStore [] [] ∅) (client0 [])).
  right. exists (getDonorAccount "guest" (mkStore [] [] ∅)). split; [reflexivity | left; reflexivity].
Defined.

Lemma mount_reads_initial_user_witness :
  user (mountClient (ledgerApi noFaults) true (Some (mkTelegramUser "Ali" (Some "Valiev")))
    (mkLocalStorage None None) (mkStore [("Ali", 5000)] [] ∅))
  = user (mountClient (ledgerApi (mkFaults false false [] false true)) true
      (Some (mkTelegramUser "Ali" (Some "Valiev")))
      (mkLocalStorage None None) (mkStore [("Ali", 5000)] [] ∅)) /\
  name (user (mountClient (ledgerApi noFaults) true (Some (mkTelegramUser "Ali" (Some "Valiev")))
    (mkLocalStorage None None) (mkStore [("Ali", 5000)] [] ∅)))
  = telegramName (mkTelegramUser "Ali" (Some "Valiev")).
Proof.
  destruct (mount_reads_initial_user (ledgerApi noFaults)
              (ledgerApi (mkFaults false false [] false true))
              (mkTelegramUser "Ali" (Some "Valiev")) (mkLocalStorage None None)
              (mkStore [("Ali", 5000)] [] ∅) ltac:(reflexivity)) as (H1 & _ & H3 & _).
  split; [exact H1 | exact H3].
Defined.

Lemma reload_after_donation_witness :
  user (mountClient (ledgerApi noFaults) false None (mkLocalStorage None None)
          (store (simulateDonation (ledgerApi noFaults) "Mehmon" threeProjects 10000
                    (mkWorld (mkStore [] threeProjects ∅) (initialClient (mkLocalStorage None None))))))
  = user (client (simulateDonation (ledgerApi noFaults) "Mehmon" threeProjects 10000
                    (mkWorld (mkStore [] threeProjects ∅) (initialClient (mkLocalStorage None None))))) /\
  localStorage (mountClient (ledgerApi noFaults) false None (mkLocalStorage None None)
          (store (simulateDonation (ledgerApi noFaults) "Mehmon" threeProjects 10000
                    (mkWorld (mkStore [] threeProjects ∅) (initialClient (mkLocalStorage None None))))))
  = localStorage (client (simulateDonation (ledgerApi noFaults) "Mehmon" threeProjects 10000
                    (mkWorld (mkStore [] threeProjects ∅) (initialClient (mkLocalStorage None None))))).
Proof.
  apply (reload_after_donation (ledgerApi noFaults) threeProjects 10000
           (mkWorld (mkStore [] threeProjects ∅) (initialClient (mkLocalStorage None None)))
           (getDonorAccount "Mehmon"
              (store (simulateDonation (ledgerApi noFaults) "Mehmon" threeProjects 10000
                        (mkWorld (mkStore [] threeProjects ∅) (initialClient (mkLocalStorage None None))))))
           10000 (mkLocalStorage None None)).
  - reflexivity.
  - vm_compute. reflexivity.
  - vm_compute. reflexivity.
  - vm_compute. reflexivity.
  - vm_compute. reflexivity.
  - lia.
Defined.

Lemma userContribution_bounds_witness :
  userContribution (mkUserState true 10000 (Some 10000) None "" EcoProtector) threeProjects
    * activeProjectsCount threeProjects <= 10000 <
  (userContribution (mkUserState true 10000 (Some 10000) None "" EcoProtector) threeProjects + 1)
    * activeProjectsCount threeProjects.
Proof.
  apply (userContribution_bounds (mkUserState true 10000 (Some 10000) None "" EcoProtector)
           threeProjects 10000).
  - reflexivity.
  - vm_compute. reflexivity.
Defined.

Lemma contributionBadge_iff_witness :
  contributionBadge (mkUserState true 2 (Some 2) None "" EcoProtector) threeProjects
    (project "P1" 0 PActive) = true
  <-> is_active (project "P1" 0 PActive) = true /\ activeProjectsCount threeProjects <= 2.
Proof.
  apply (contributionBadge_iff (mkUserState true 2 (Some 2) None "" EcoProtector) threeProjects
           (project "P1" 0 PActive) 2).
  - reflexivity.
  - lia.
  - left. reflexivity.
Defined.

Lemma banner_after_donation_witness :
  thankYouBanner (user (client (simulateDonation (ledgerApi noFaults) "" threeProjects 10000
                                 (world0 threeProjects)))) = true.
Proof.
  apply (banner_after_donation (ledgerApi noFaults) "" threeProjects 10000 (world0 threeProjects)
           (getDonorAccount "guest" (store (simulateDonation (ledgerApi noFaults) ""
                                              threeProjects 10000 (world0 threeProjects))))).
  - vm_compute. reflexivity.
  - vm_compute. reflexivity.
  - lia.
  - intros v Hv. vm_compute in Hv. injection Hv as <-. lia.
Defined.

Lemma modalSession_negative_witness :
  modalSession ([PresetClick 5000] ++ [InputChange (Some (-5000))])%list = Some (-5000).
Proof. apply (modalSession_negative [PresetClick 5000] (-5000)). lia. Defined.

End Extras.
